(** * pdf-compressor: the conversion request pipeline

    A shallow embedding of the Express server of [index.js].  The file holds
    two revisions of the server: the first one (lines 1-512, port 7000) is
    embedded in module [V1], the second one (lines 513-873, [process.env.PORT])
    in module [V2].  What the two revisions share (the profile table, the
    level default, the model of the runtime) comes first. *)

From Stdlib Require Import NArith ZArith Lia DecimalN.
From stdpp Require Import gmap strings list.

#[local] Set Warnings "-clear-no-such-hyp".

Local Open Scope N_scope.

(** ** JavaScript strings

    A JavaScript string is a sequence of UTF-16 code units; the regular
    expressions of the program carry no [u] flag, so they see one code unit
    at a time. *)

Definition code_unit := N.
Abbreviation jstring := (list N).

(** [js "abc"] is the string literal ['abc']. *)
Definition js (s : string) : jstring :=
  map (fun a => Ascii.N_of_ascii a) (String.list_ascii_of_string s).

(** *** Code units the program names *)

Definition c_underscore : N := 95.
Definition c_hyphen : N := 45.
Definition c_dot : N := 46.
Definition c_slash : N := 47.
Definition c_space : N := 32.
Definition c_dquote : N := 34.

Definition is_lower (c : N) : bool := (97 <=? c) && (c <=? 122).
Definition is_upper (c : N) : bool := (65 <=? c) && (c <=? 90).
Definition is_digit (c : N) : bool := (48 <=? c) && (c <=? 57).
Definition is_alnum (c : N) : bool := is_lower c || is_upper c || is_digit c.

(** The class [[a-zA-Z0-9_-]] (line 581). *)
Definition is_word_hyphen (c : N) : bool :=
  is_alnum c || (c =? c_underscore) || (c =? c_hyphen).

(** The class [[a-zA-Z0-9._-]] (line 530). *)
Definition is_word_dot_hyphen (c : N) : bool :=
  is_alnum c || (c =? c_dot) || (c =? c_underscore) || (c =? c_hyphen).

(** The class [[a-zA-Z0-9.]] (line 49). *)
Definition is_alnum_dot (c : N) : bool := is_alnum c || (c =? c_dot).

(** ECMAScript WhiteSpace and LineTerminator: what [\s] matches and what
    [String.prototype.trim] strips. *)
Definition is_js_space (c : N) : bool :=
  ((9 <=? c) && (c <=? 13)) || (c =? 32) || (c =? 160) || (c =? 5760)
  || ((8192 <=? c) && (c <=? 8202)) || (c =? 8232) || (c =? 8233)
  || (c =? 8239) || (c =? 8287) || (c =? 12288) || (c =? 65279).

(** *** String.prototype methods *)

(** [s.replace(/[^CLASS]/g, '_')]: every code unit outside the class becomes
    an underscore. *)
Definition replace_outside (keep : N -> bool) (s : jstring) : jstring :=
  map (fun c => if keep c then c else c_underscore) s.

(** [s.replace(/__+/g, '_')]: a run of two or more underscores becomes one.
    An underscore followed by another one is dropped, which leaves the last
    underscore of every run. *)
Fixpoint collapse_underscores (s : jstring) : jstring :=
  match s with
  | [] => []
  | c :: t =>
      match t with
      | d :: _ =>
          if (c =? c_underscore) && (d =? c_underscore)
          then collapse_underscores t
          else c :: collapse_underscores t
      | [] => [c]
      end
  end.

Fixpoint strip_leading (p : N -> bool) (s : jstring) : jstring :=
  match s with
  | [] => []
  | c :: t => if p c then strip_leading p t else s
  end.

Definition strip_trailing (p : N -> bool) (s : jstring) : jstring :=
  rev (strip_leading p (rev s)).

(** [s.replace(/^_+|_+$/g, '')]: the leading run and the trailing run of
    underscores are removed. *)
Definition strip_underscores (s : jstring) : jstring :=
  strip_trailing (fun c => c =? c_underscore)
    (strip_leading (fun c => c =? c_underscore) s).

(** [s.replace(/\s+/g, '_')]: every run of white space becomes one
    underscore. *)
Fixpoint replace_space_runs (s : jstring) : jstring :=
  match s with
  | [] => []
  | c :: t =>
      if is_js_space c then
        match t with
        | d :: _ => if is_js_space d then replace_space_runs t
                    else c_underscore :: replace_space_runs t
        | [] => [c_underscore]
        end
      else c :: replace_space_runs t
  end.

(** [s.trim()]. *)
Definition trim (s : jstring) : jstring :=
  strip_trailing is_js_space (strip_leading is_js_space s).

Fixpoint starts_with (p s : jstring) : bool :=
  match p, s with
  | [], _ => true
  | a :: p', b :: s' => (a =? b) && starts_with p' s'
  | _ :: _, [] => false
  end.

Definition ends_with (p s : jstring) : bool := starts_with (rev p) (rev s).

(** [s.slice(a, b)] for [0 <= a] and [0 <= b]. *)
Definition slice (s : jstring) (a b : Z) : jstring :=
  take (Z.to_nat (b - a)) (drop (Z.to_nat a) s).

Definition jlength (s : jstring) : Z := Z.of_nat (length s).

Definition jstring_eqb (a b : jstring) : bool := bool_decide (a = b).

(** ASCII upper case of a code unit, for the [i] flag of [/\.pdf$/i]: without
    the [u] flag a code unit outside ASCII never folds to an ASCII letter. *)
Definition ascii_upper (c : N) : N := if is_lower c then c - 32 else c.

(** [s.replace(/\.pdf$/i, '')]. *)
Definition strip_pdf_suffix (s : jstring) : jstring :=
  if ends_with (js ".PDF") (map ascii_upper s)
  then take (length s - 4)%nat s
  else s.

(** [String(n)] for a non-negative integer below 10^21, as a template literal
    renders [Date.now()]. *)
Fixpoint digits_of_uint (d : Decimal.uint) : jstring :=
  match d with
  | Decimal.Nil => []
  | Decimal.D0 d => 48 :: digits_of_uint d
  | Decimal.D1 d => 49 :: digits_of_uint d
  | Decimal.D2 d => 50 :: digits_of_uint d
  | Decimal.D3 d => 51 :: digits_of_uint d
  | Decimal.D4 d => 52 :: digits_of_uint d
  | Decimal.D5 d => 53 :: digits_of_uint d
  | Decimal.D6 d => 54 :: digits_of_uint d
  | Decimal.D7 d => 55 :: digits_of_uint d
  | Decimal.D8 d => 56 :: digits_of_uint d
  | Decimal.D9 d => 57 :: digits_of_uint d
  end.

Definition Number_toString (n : N) : jstring := digits_of_uint (N.to_uint n).

(** [parseInt]-style reading of a string of decimal digits. *)
Definition parse_decimal (s : jstring) : N :=
  fold_left (fun acc c => 10 * acc + (c - 48)) s 0.

(** ** Node's [path] module (POSIX flavour)

    [path.extname], [path.basename] and [path.join] belong to the runtime.
    The first two follow the scanning loops of Node's [lib/path.js]: the
    string is walked from its last code unit to its first. *)

Module path.

Record ext_state := {
  startDot : Z; startPart : Z; ext_end : Z;
  ext_matchedSlash : bool; preDotState : Z }.

(** One run of the [for] loop of [extname] over the code units
    [(i, code)], from the highest index down; a [break] ends it. *)
Fixpoint extname_loop (cs : list (Z * N)) (st : ext_state) : ext_state :=
  match cs with
  | [] => st
  | (i, code) :: rest =>
      if code =? c_slash then
        if negb (ext_matchedSlash st)
        then {| startDot := startDot st; startPart := (i + 1)%Z;
                ext_end := ext_end st;
                ext_matchedSlash := ext_matchedSlash st;
                preDotState := preDotState st |}
        else extname_loop rest st
      else
        let st1 :=
          if (ext_end st =? -1)%Z
          then {| startDot := startDot st; startPart := startPart st;
                  ext_end := (i + 1)%Z; ext_matchedSlash := false;
                  preDotState := preDotState st |}
          else st in
        let st2 :=
          if code =? c_dot then
            if (startDot st1 =? -1)%Z
            then {| startDot := i; startPart := startPart st1;
                    ext_end := ext_end st1;
                    ext_matchedSlash := ext_matchedSlash st1;
                    preDotState := preDotState st1 |}
            else if negb (preDotState st1 =? 1)%Z
            then {| startDot := startDot st1; startPart := startPart st1;
                    ext_end := ext_end st1;
                    ext_matchedSlash := ext_matchedSlash st1;
                    preDotState := 1%Z |}
            else st1
          else if negb (startDot st1 =? -1)%Z
          then {| startDot := startDot st1; startPart := startPart st1;
                  ext_end := ext_end st1;
                  ext_matchedSlash := ext_matchedSlash st1;
                  preDotState := (-1)%Z |}
          else st1 in
        extname_loop rest st2
  end.

(** The code units of [s] paired with their indices, last one first. *)
Definition indexed_rev (s : jstring) : list (Z * N) :=
  rev (imap (fun i c => (Z.of_nat i, c)) s).

Definition extname (p : jstring) : jstring :=
  let st := extname_loop (indexed_rev p)
              {| startDot := -1; startPart := 0; ext_end := -1;
                 ext_matchedSlash := true; preDotState := 0 |} in
  if (startDot st =? -1)%Z || (ext_end st =? -1)%Z
     || (preDotState st =? 0)%Z
     || ((preDotState st =? 1)%Z
         && (startDot st =? ext_end st - 1)%Z
         && (startDot st =? startPart st + 1)%Z)
  then []
  else slice p (startDot st) (ext_end st).

Record base_state := {
  b_start : Z; b_end : Z; b_matchedSlash : bool;
  extIdx : Z; firstNonSlashEnd : Z }.

(** The loop of [basename] when no suffix is to be removed. *)
Fixpoint basename_plain_loop (cs : list (Z * N)) (st : base_state)
  : base_state :=
  match cs with
  | [] => st
  | (i, code) :: rest =>
      if code =? c_slash then
        if negb (b_matchedSlash st)
        then {| b_start := (i + 1)%Z; b_end := b_end st;
                b_matchedSlash := b_matchedSlash st;
                extIdx := extIdx st;
                firstNonSlashEnd := firstNonSlashEnd st |}
        else basename_plain_loop rest st
      else if (b_end st =? -1)%Z
      then basename_plain_loop rest
             {| b_start := b_start st; b_end := (i + 1)%Z;
                b_matchedSlash := false; extIdx := extIdx st;
                firstNonSlashEnd := firstNonSlashEnd st |}
      else basename_plain_loop rest st
  end.

(** The loop of [basename] that also matches [suffix] from its end. *)
Fixpoint basename_suffix_loop (suffix : jstring) (cs : list (Z * N))
  (st : base_state) : base_state :=
  match cs with
  | [] => st
  | (i, code) :: rest =>
      if code =? c_slash then
        if negb (b_matchedSlash st)
        then {| b_start := (i + 1)%Z; b_end := b_end st;
                b_matchedSlash := b_matchedSlash st;
                extIdx := extIdx st;
                firstNonSlashEnd := firstNonSlashEnd st |}
        else basename_suffix_loop suffix rest st
      else
        let st1 :=
          if (firstNonSlashEnd st =? -1)%Z
          then {| b_start := b_start st; b_end := b_end st;
                  b_matchedSlash := false; extIdx := extIdx st;
                  firstNonSlashEnd := (i + 1)%Z |}
          else st in
        let st2 :=
          if (0 <=? extIdx st1)%Z then
            if bool_decide (suffix !! Z.to_nat (extIdx st1) = Some code)
            then
              if (extIdx st1 - 1 =? -1)%Z
              then {| b_start := b_start st1; b_end := i;
                      b_matchedSlash := b_matchedSlash st1;
                      extIdx := (extIdx st1 - 1)%Z;
                      firstNonSlashEnd := firstNonSlashEnd st1 |}
              else {| b_start := b_start st1; b_end := b_end st1;
                      b_matchedSlash := b_matchedSlash st1;
                      extIdx := (extIdx st1 - 1)%Z;
                      firstNonSlashEnd := firstNonSlashEnd st1 |}
            else {| b_start := b_start st1;
                    b_end := firstNonSlashEnd st1;
                    b_matchedSlash := b_matchedSlash st1;
                    extIdx := (-1)%Z;
                    firstNonSlashEnd := firstNonSlashEnd st1 |}
          else st1 in
        basename_suffix_loop suffix rest st2
  end.

Definition basename (p suffix : jstring) : jstring :=
  if (0 <? jlength suffix)%Z && (jlength suffix <=? jlength p)%Z then
    if jstring_eqb suffix p then []
    else
      let st := basename_suffix_loop suffix (indexed_rev p)
                  {| b_start := 0; b_end := -1; b_matchedSlash := true;
                     extIdx := jlength suffix - 1;
                     firstNonSlashEnd := -1 |} in
      let e :=
        if (b_start st =? b_end st)%Z then firstNonSlashEnd st
        else if (b_end st =? -1)%Z then jlength p
        else b_end st in
      slice p (b_start st) e
  else
    let st := basename_plain_loop (indexed_rev p)
                {| b_start := 0; b_end := -1; b_matchedSlash := true;
                   extIdx := -1; firstNonSlashEnd := -1 |} in
    if (b_end st =? -1)%Z then [] else slice p (b_start st) (b_end st).

(** [path.join(dir, name)] where [name] is a single path segment other
    than [.] and [..] (every name the program joins starts with a
    timestamp or with [compressed-] and holds no slash): the
    normalisation leaves [dir/name], with one separator. *)
Definition join (dir name : jstring) : jstring :=
  strip_trailing (fun c => c =? c_slash) dir ++ c_slash :: name.

End path.

(** ** The compression profile table (lines 23-27 and 537-541)

    Both revisions declare the same object literal. *)

Record profile := { level : jstring; imageResolution : jstring }.

Definition little : profile :=
  {| level := js "/screen"; imageResolution := js "72" |}.
Definition middle : profile :=
  {| level := js "/ebook"; imageResolution := js "150" |}.
Definition high : profile :=
  {| level := js "/printer"; imageResolution := js "300" |}.

(** The own properties of the literal. *)
Definition compressionSettings : gmap jstring profile :=
  <[js "little" := little]> (<[js "middle" := middle]>
    (<[js "high" := high]> ∅)).

(** The literal inherits from [Object.prototype]; these are the names a
    property read finds there. *)
Definition Object_prototype_names : list jstring :=
  [ js "constructor"; js "__defineGetter__"; js "__defineSetter__";
    js "hasOwnProperty"; js "__lookupGetter__"; js "__lookupSetter__";
    js "isPrototypeOf"; js "propertyIsEnumerable"; js "toString";
    js "valueOf"; js "__proto__"; js "toLocaleString" ].

(** What [compressionSettings[key]] evaluates to. *)
Inductive lookup_result :=
  | Found (p : profile)         (* an own property: a profile record *)
  | Inherited (name : jstring)  (* a member of Object.prototype *)
  | NotFound.                   (* undefined *)

Definition profile_lookup (key : jstring) : lookup_result :=
  match compressionSettings !! key with
  | Some p => Found p
  | None =>
      if bool_decide (key ∈ Object_prototype_names)
      then Inherited key else NotFound
  end.

(** [!settings] is true for [undefined] only: records, functions and
    objects are truthy. *)
Definition truthy (v : lookup_result) : bool :=
  match v with NotFound => false | _ => true end.

(** [`${settings.level}`] and [`${settings.imageResolution}`]: a member of
    Object.prototype has neither property, and a template literal renders
    [undefined] by its name. *)
Definition settings_level (v : lookup_result) : jstring :=
  match v with Found p => level p | _ => js "undefined" end.
Definition settings_imageResolution (v : lookup_result) : jstring :=
  match v with Found p => imageResolution p | _ => js "undefined" end.

(** ** Requests *)

(** The file part of the multipart body, as the client sends it. *)
Record upload := {
  originalname : jstring;   (* the client's file name *)
  mimetype : jstring;       (* the declared content type *)
  content : list N }.       (* the bytes *)

(** [pdfFile] is the file field, [body_compressionLevel] is
    [req.body.compressionLevel] ([None] when the form has no such field). *)
Record request := {
  pdfFile : option upload;
  body_compressionLevel : option jstring }.

(** [req.body.compressionLevel || 'middle'] (lines 34 and 549): [undefined]
    and the empty string are the falsy strings. *)
Definition compressionLevel (req : request) : jstring :=
  match body_compressionLevel req with
  | Some (c :: s) => c :: s
  | Some [] | None => js "middle"
  end.

(** ** The world a request runs in *)

Inductive console_stream := Log | Warn | Error.

(** How [res.download] ends: the whole file went out, the client went away
    after the headers, or the file could not be opened (nothing sent). *)
Inductive download_outcome := Delivered | Aborted | Missing.

Inductive event :=
  | EvMkdir (d : jstring)
  | EvStore (p : jstring)                     (* multer writes the upload *)
  | EvUnlink (p : jstring)                    (* fs.unlink is called *)
  | EvExec (cmd : jstring)                    (* child_process.exec *)
  | EvJson (status : N) (message : jstring)   (* res.status(s).json({message}) *)
  | EvDownload (p name : jstring) (o : download_outcome)
  | EvConsole (s : console_stream) (msg : jstring).

(** [files] and [dirs] are the paths that exist; [trace] lists what the
    server did, oldest first. *)
Record world := {
  files : gset jstring;
  dirs : gset jstring;
  trace : list event }.

Definition action := world -> world.

Definition emit (e : event) : action := fun w =>
  {| files := files w; dirs := dirs w; trace := trace w ++ [e] |}.

Definition seq_action (a b : action) : action := fun w => b (a w).
Notation "a >>> b" := (seq_action a b) (at level 65, right associativity).

Definition skip : action := fun w => w.

(** [if (!fs.existsSync(d)) fs.mkdirSync(d)]. *)
Definition ensure_dir (d : jstring) : action := fun w =>
  if bool_decide (d ∈ dirs w) then w
  else emit (EvMkdir d)
         {| files := files w; dirs := {[d]} ∪ dirs w; trace := trace w |}.

(** [fs.unlink(p, cb)]: the file goes away when it is there; when it is
    not, the callback receives an error and runs [on_error].  The deletion
    is recorded where the call is made; a deletion that fails for another
    reason than a missing file is outside the model. *)
Definition fs_unlink (p : jstring) (on_error : action) : action := fun w =>
  if bool_decide (p ∈ files w)
  then emit (EvUnlink p)
         {| files := files w ∖ {[p]}; dirs := dirs w; trace := trace w |}
  else on_error (emit (EvUnlink p) w).

Definition create_file (p : jstring) : action := fun w =>
  {| files := {[p]} ∪ files w; dirs := dirs w; trace := trace w |}.

Definition console (s : console_stream) (msg : jstring) : action :=
  emit (EvConsole s msg).

Definition res_json (status : N) (message : jstring) : action :=
  emit (EvJson status message).

(** *** The external tool *)

(** How the child process ended. *)
Inductive child_exit :=
  | Exited (code : N)
  | Signaled
  | SpawnFailed (message : jstring).

(** What one run of the tool does: how it ends, what it prints, and whether
    it leaves a file at the output path (a failing run may leave a partial
    one, a run that exits with zero may leave none). *)
Record child_result := {
  child_status : child_exit;
  child_stdout : jstring;
  child_stderr : jstring;
  writes_output : bool }.

(** The [error] argument of the callback of [exec]: [null] exactly for exit
    status zero; otherwise an Error whose message is given here. *)
Definition exec_error (cmd : jstring) (r : child_result) : option jstring :=
  match child_status r with
  | Exited 0 => None
  | Exited _ | Signaled =>
      Some (js "Command failed: " ++ cmd ++ [10] ++ child_stderr r)
  | SpawnFailed m => Some m
  end.

(** What the surroundings decide for one request: the two clock readings,
    the run of the tool, and whether the client stays for the download. *)
Record environment := {
  now_upload : N;      (* Date.now() in multer's filename callback *)
  now_handler : N;     (* Date.now() where the output name is built *)
  child : child_result;
  client_aborts : bool }.

(** [res.download(p, name, cb)]: the outcome handed to the callback, from
    the files that exist when the download starts. *)
Definition download_outcome_of (env : environment) (p : jstring)
  (fs : gset jstring) : download_outcome :=
  if bool_decide (p ∈ fs)
  then (if client_aborts env then Aborted else Delivered)
  else Missing.

(** The callback of [res.download] receives an error unless the whole file
    went out. *)
Definition download_failed (o : download_outcome) : bool :=
  match o with Delivered => false | _ => true end.

(** After [Delivered] and [Aborted] the response headers are out. *)
Definition headersSent (o : download_outcome) : bool :=
  match o with Missing => false | _ => true end.

(** *** The shell

    [exec] hands the command line to [/bin/sh -c].  [sh_words] splits a
    line the way the shell does when the line is one simple command made of
    bare words and double-quoted parts; it gives [None] as soon as the
    line holds anything that has a meaning of its own to the shell (an
    operator, an expansion, a substitution, an escape, a glob, another
    kind of quote, an unclosed quote).  It stays on the safe side: every
    [$], [`] and [\] gives [None], also between double quotes in front of
    a code unit where the shell would keep it as it is.  The words are
    the shell's whenever [sh_words] gives them; [None] says nothing about
    what the shell does with the line. *)

Inductive sh_mode := Bare | InDouble.

(** [cur] is the word being read (its code units last first), [words] the
    words read so far (last first). *)
Record sh_state := {
  mode : sh_mode;
  cur : option jstring;
  words : list jstring }.

Definition sh_blank (c : N) : bool := (c =? 32) || (c =? 9) || (c =? 10).

(** Code units special to the shell in a bare word:
    [| & ; < > ( ) $ ` \ ' * ? [ # ~ ! { }]. *)
Definition sh_meta (c : N) : bool :=
  bool_decide (c ∈ [124; 38; 59; 60; 62; 40; 41; 36; 96; 92; 39; 42; 63;
                    91; 35; 126; 33; 123; 125]).

(** Code units special to the shell between double quotes: [$ ` \]. *)
Definition sh_meta_quoted (c : N) : bool :=
  bool_decide (c ∈ [36; 96; 92]).

Definition sh_push (c : N) (w : option jstring) : option jstring :=
  Some (c :: default [] w).

Definition sh_flush (w : option jstring) (ws : list jstring) : list jstring :=
  match w with Some r => rev r :: ws | None => ws end.

Definition sh_step (st : sh_state) (c : N) : option sh_state :=
  match mode st with
  | Bare =>
      if sh_blank c then
        Some {| mode := Bare; cur := None;
                words := sh_flush (cur st) (words st) |}
      else if c =? c_dquote then
        Some {| mode := InDouble; cur := Some (default [] (cur st));
                words := words st |}
      else if sh_meta c then None
      else Some {| mode := Bare; cur := sh_push c (cur st);
                   words := words st |}
  | InDouble =>
      if c =? c_dquote then
        Some {| mode := Bare; cur := cur st; words := words st |}
      else if sh_meta_quoted c then None
      else Some {| mode := InDouble; cur := sh_push c (cur st);
                   words := words st |}
  end.

Fixpoint sh_run (s : jstring) (st : sh_state) : option sh_state :=
  match s with
  | [] => Some st
  | c :: t =>
      match sh_step st c with
      | Some st' => sh_run t st'
      | None => None
      end
  end.

Definition sh_finish (st : sh_state) : option (list jstring) :=
  match mode st with
  | Bare => Some (rev (sh_flush (cur st) (words st)))
  | InDouble => None
  end.

Definition sh_words (s : jstring) : option (list jstring) :=
  match sh_run s {| mode := Bare; cur := None; words := [] |} with
  | Some st => sh_finish st
  | None => None
  end.

(** ** The command line (lines 57-64 and 596-603)

    The template literal is the same in both revisions.  A backslash at the
    end of a line of a template literal continues the line, so each break
    leaves the blank before the backslash and the 21 blanks that indent the
    next line. *)

Definition indent : jstring := repeat c_space 21.

Definition gsCommand (settings : lookup_result) (outputPath inputPath : jstring)
  : jstring :=
  js "gs -sDEVICE=pdfwrite -dCompatibilityLevel=1.4 " ++ indent ++
  js "-dPDFSETTINGS=" ++ settings_level settings ++ js " " ++ indent ++
  js "-dNOPAUSE -dQUIET -dBATCH " ++ indent ++
  js "-dDetectDuplicateImages=true " ++ indent ++
  js "-dColorImageResolution=" ++ settings_imageResolution settings ++
  js " " ++ indent ++
  js "-dGrayImageResolution=" ++ settings_imageResolution settings ++
  js " " ++ indent ++
  js "-dMonoImageResolution=" ++ settings_imageResolution settings ++
  js " " ++ indent ++
  js "-sOutputFile=" ++ [c_dquote] ++ outputPath ++ [c_dquote] ++
  js " " ++ [c_dquote] ++ inputPath ++ [c_dquote].

(** The file that the tool is told to write: the path after
    [-sOutputFile=] among the words the shell makes of the command line.
    A line the shell does not read as a list of words names none. *)
Definition output_file_of (cmd : jstring) : option jstring :=
  match sh_words cmd with
  | Some ws =>
      hd_error
        (omap (fun word =>
                 if starts_with (js "-sOutputFile=") word
                 then Some (drop 13 word) else None) ws)
  | None => None
  end.

(** What the run of the tool leaves on disk, for the lines that
    [sh_words] reads: every line of the second revision, and the lines of
    the first revision for a file name without the quote, [$], [`] and
    [\].  For the other lines nothing is written in the model. *)
Definition run_tool (env : environment) (cmd : jstring) : action :=
  match output_file_of cmd with
  | Some outputPath =>
      if writes_output (child env) then create_file outputPath else skip
  | None => skip
  end.

(** [exec(cmd, cb)]: the command runs, then the callback runs with the
    error. *)
Definition exec (env : environment) (cmd : jstring)
  (cb : option jstring -> action) : action :=
  emit (EvExec cmd) >>> run_tool env cmd >>> cb (exec_error cmd (child env)).

(** [res.download(p, name, cb)]. *)
Definition res_download (env : environment) (p name : jstring)
  (cb : download_outcome -> action) : action := fun w =>
  let o := download_outcome_of env p (files w) in
  cb o (emit (EvDownload p name o) w).

(** [stderr || error.message]. *)
Definition or_else (a b : jstring) : jstring :=
  match a with [] => b | _ => a end.

Definition when (b : bool) (a : action) : action := if b then a else skip.

Definition nonempty (s : jstring) : bool :=
  match s with [] => false | _ => true end.

(** ** The second revision (lines 513-873) *)

Module V2.

Definition uploadDir : jstring := js "uploads/".
Definition compressedDir : jstring := js "compressed_pdfs/".

(** multer's [filename] callback (lines 529-532). *)
Definition storage_filename (now : N) (originalname : jstring) : jstring :=
  let safeOriginalName := replace_outside is_word_dot_hyphen originalname in
  Number_toString now ++ js "-" ++ safeOriginalName.

(** [req.file.path]: multer joins the destination and the file name. *)
Definition file_path (now : N) (originalname : jstring) : jstring :=
  path.join uploadDir (storage_filename now originalname).

(** [upload.single('pdfFile')] with the disk storage of lines 523-534:
    a file part is written to its path before the handler runs. *)
Definition upload_single (env : environment) (req : request) : action :=
  match pdfFile req with
  | None => skip
  | Some u =>
      let p := file_path (now_upload env) (originalname u) in
      ensure_dir uploadDir >>> emit (EvStore p) >>> create_file p
  end.

(** Lines 562-574. *)
Definition baseName (originalname : jstring) : jstring :=
  let originalFileName := trim originalname in
  let originalFileExtension := path.extname originalFileName in
  let baseName := path.basename originalFileName originalFileExtension in
  let baseName :=
    if jstring_eqb baseName [] && starts_with (js ".") originalFileName
    then js "file_from_extension"
    else if ends_with (js ".") originalFileName
            && jstring_eqb originalFileExtension (js ".")
    then slice originalFileName 0 (jlength originalFileName - 1)
    else baseName in
  if nonempty baseName then baseName else js "untitled".

(** Lines 581-583. *)
Definition sanitizedBaseName (baseName : jstring) : jstring :=
  strip_underscores
    (collapse_underscores (replace_outside is_word_hyphen baseName)).

(** Line 585, from the client's file name. *)
Definition finalBaseName (originalname : jstring) : jstring :=
  or_else (sanitizedBaseName (baseName originalname))
          (js "compressed_document").

(** Line 589. *)
Definition outputFileName (now : N) (originalname : jstring) : jstring :=
  js "compressed-" ++ Number_toString now ++ js "-" ++
  finalBaseName originalname ++ js ".pdf".

(** Line 594. *)
Definition outputPath (now : N) (originalname : jstring) : jstring :=
  path.join compressedDir (outputFileName now originalname).

(** The callback of [res.download] (lines 624-631). *)
Definition download_callback (outputPath : jstring) (o : download_outcome)
  : action :=
  when (download_failed o)
    (console Error (js "Error sending file to client:")) >>>
  fs_unlink outputPath
    (console Error (js "Error deleting compressed file from server:")).

(** The callback of [exec] (lines 606-632). *)
Definition exec_callback (env : environment)
  (inputPath outputPath outputFileName : jstring)
  (error : option jstring) : action :=
  let stderr := child_stderr (child env) in
  fs_unlink inputPath
    (console Error (js "Error deleting uploaded temporary file:")) >>>
  match error with
  | Some message =>
      console Error (js "Ghostscript error: " ++ message) >>>
      console Error (js "Ghostscript stderr: " ++ stderr) >>>
      fs_unlink outputPath skip >>>
      res_json 500
        (js "Error compressing PDF. Ghostscript stderr: "
         ++ or_else stderr message)
  | None =>
      when (nonempty stderr)
        (console Warn (js "Ghostscript stderr (warnings/info): " ++ stderr))
      >>>
      console Log (js "PDF compressed successfully: " ++ outputPath) >>>
      res_download env outputPath outputFileName
        (download_callback outputPath)
  end.

(** The handler of [POST /compress-pdf] (lines 544-633). *)
Definition handler (env : environment) (req : request) : action :=
  match pdfFile req with
  | None => res_json 400 (js "No PDF file uploaded.")
  | Some u =>
      let req_file_path := file_path (now_upload env) (originalname u) in
      let settings := profile_lookup (compressionLevel req) in
      if negb (truthy settings) then
        fs_unlink req_file_path
          (console Error
             (js "Error deleting uploaded file on invalid settings:")) >>>
        res_json 400
          (js "Invalid compression level. Choose from: little, middle, high.")
      else
        let inputPath := req_file_path in
        let outputFileName :=
          outputFileName (now_handler env) (originalname u) in
        let outputPath := outputPath (now_handler env) (originalname u) in
        let gsCommand := gsCommand settings outputPath inputPath in
        ensure_dir compressedDir >>>
        console Log (js "Executing Ghostscript: " ++ gsCommand) >>>
        exec env gsCommand
          (exec_callback env inputPath outputPath outputFileName)
  end.

(** One request, from the multipart parser to the last callback. *)
Definition post_compress_pdf (env : environment) (req : request) : action :=
  upload_single env req >>> handler env req.

End V2.

(** ** The first revision (lines 1-512) *)

Module V1.

Definition uploadDir : jstring := js "uploads/".
Definition compressedDir : jstring := js "compressed_pdfs/".

(** multer's [filename] callback (lines 17-19). *)
Definition storage_filename (now : N) (originalname : jstring) : jstring :=
  Number_toString now ++ js "-" ++ replace_space_runs originalname.

Definition file_path (now : N) (originalname : jstring) : jstring :=
  path.join uploadDir (storage_filename now originalname).

Definition upload_single (env : environment) (req : request) : action :=
  match pdfFile req with
  | None => skip
  | Some u =>
      let p := file_path (now_upload env) (originalname u) in
      ensure_dir uploadDir >>> emit (EvStore p) >>> create_file p
  end.

(** Lines 48-50. *)
Definition originalNameSanitized (originalname : jstring) : jstring :=
  strip_pdf_suffix (replace_outside is_alnum_dot originalname).

(** Line 51. *)
Definition outputFileName (now : N) (originalname : jstring) : jstring :=
  js "compressed-" ++ Number_toString now ++ js "-" ++
  originalNameSanitized originalname ++ js ".pdf".

(** Line 52. *)
Definition outputPath (now : N) (originalname : jstring) : jstring :=
  path.join (js "compressed_pdfs") (outputFileName now originalname).

(** The callback of [res.download] (lines 82-94). *)
Definition download_callback (outputPath : jstring) (o : download_outcome)
  : action :=
  when (download_failed o)
    (console Error (js "Error sending file:") >>>
     when (negb (headersSent o))
       (res_json 500 (js "Error sending the compressed file."))) >>>
  fs_unlink outputPath (console Error (js "Error deleting compressed file:")).

(** The callback of [exec] (lines 67-95). *)
Definition exec_callback (env : environment)
  (inputPath outputPath outputFileName : jstring)
  (error : option jstring) : action :=
  let stderr := child_stderr (child env) in
  fs_unlink inputPath (console Error (js "Error deleting uploaded file:")) >>>
  match error with
  | Some message =>
      console Error (js "Ghostscript error: " ++ message) >>>
      console Error (js "Ghostscript stderr: " ++ stderr) >>>
      res_json 500 (js "Error compressing PDF: " ++ or_else stderr message)
  | None =>
      when (nonempty stderr)
        (console Warn (js "Ghostscript stderr (warnings): " ++ stderr)) >>>
      console Log (js "PDF compressed successfully: " ++ outputPath) >>>
      res_download env outputPath outputFileName
        (download_callback outputPath)
  end.

(** The handler of [POST /compress-pdf] (lines 29-96). *)
Definition handler (env : environment) (req : request) : action :=
  match pdfFile req with
  | None => res_json 400 (js "No PDF file uploaded.")
  | Some u =>
      let req_file_path := file_path (now_upload env) (originalname u) in
      let settings := profile_lookup (compressionLevel req) in
      if negb (truthy settings) then
        fs_unlink req_file_path
          (console Error
             (js "Error deleting uploaded file on invalid settings:")) >>>
        res_json 400
          (js "Invalid compression level. Choose from: little, middle, high.")
      else
        let inputPath := req_file_path in
        let outputFileName :=
          outputFileName (now_handler env) (originalname u) in
        let outputPath := outputPath (now_handler env) (originalname u) in
        let gsCommand := gsCommand settings outputPath inputPath in
        ensure_dir compressedDir >>>
        console Log (js "Executing Ghostscript: " ++ gsCommand) >>>
        exec env gsCommand
          (exec_callback env inputPath outputPath outputFileName)
  end.

Definition post_compress_pdf (env : environment) (req : request) : action :=
  upload_single env req >>> handler env req.

End V1.

(** ** What a trace shows *)

Definition is_exec (e : event) : bool :=
  match e with EvExec _ => true | _ => false end.

(** The command lines handed to [exec], oldest first. *)
Definition exec_commands (t : list event) : list jstring :=
  omap (fun e => match e with EvExec c => Some c | _ => None end) t.

(** The JSON responses sent, oldest first. *)
Definition json_responses (t : list event) : list (N * jstring) :=
  omap (fun e => match e with EvJson s m => Some (s, m) | _ => None end) t.

(** The downloads started, oldest first. *)
Definition downloads (t : list event) : list (jstring * jstring * download_outcome) :=
  omap (fun e => match e with
                 | EvDownload p n o => Some (p, n, o) | _ => None end) t.

Definition empty_world : world := {| files := ∅; dirs := ∅; trace := [] |}.

(** ** Notions the properties are stated with *)

(** [^[A-Za-z0-9_-]+$] as a test. *)
Definition matches_word_hyphen_plus (s : jstring) : bool :=
  nonempty s && forallb is_word_hyphen s.

(** The keys of the own properties of the table. *)
Definition own_levels : list jstring := [js "little"; js "middle"; js "high"].

(** The code units of [[a-zA-Z0-9._-]] and the slash: what the two paths
    are made of. *)
Definition path_safe (c : N) : bool := is_word_dot_hyphen c || (c =? c_slash).

(** The part of the command line before the output path: everything up to
    the quote that opens it. *)
Definition gs_head (settings : lookup_result) : jstring :=
  js "gs -sDEVICE=pdfwrite -dCompatibilityLevel=1.4 " ++ indent ++
  js "-dPDFSETTINGS=" ++ settings_level settings ++ js " " ++ indent ++
  js "-dNOPAUSE -dQUIET -dBATCH " ++ indent ++
  js "-dDetectDuplicateImages=true " ++ indent ++
  js "-dColorImageResolution=" ++ settings_imageResolution settings ++
  js " " ++ indent ++
  js "-dGrayImageResolution=" ++ settings_imageResolution settings ++
  js " " ++ indent ++
  js "-dMonoImageResolution=" ++ settings_imageResolution settings ++
  js " " ++ indent ++
  js "-sOutputFile=" ++ [c_dquote].

(** The words the shell is meant to see. *)
Definition gs_words (directive resolution outputPath inputPath : jstring)
  : list jstring :=
  [ js "gs"; js "-sDEVICE=pdfwrite"; js "-dCompatibilityLevel=1.4";
    js "-dPDFSETTINGS=" ++ directive;
    js "-dNOPAUSE"; js "-dQUIET"; js "-dBATCH";
    js "-dDetectDuplicateImages=true";
    js "-dColorImageResolution=" ++ resolution;
    js "-dGrayImageResolution=" ++ resolution;
    js "-dMonoImageResolution=" ++ resolution;
    js "-sOutputFile=" ++ outputPath;
    inputPath ].

(** An action that leaves the files alone. *)
Definition keeps_files (a : action) : Prop := forall w, files (a w) = files w.

(** What the observer [f] makes of one event. *)
Definition seen {A} (f : event -> option A) (e : event) : list A :=
  option_list (f e).

(** An action whose events the observer [f] does not see. *)
Definition unseen {A} (f : event -> option A) (a : action) : Prop :=
  forall w, omap f (trace (a w)) = omap f (trace w).

(** The files that exist when the download starts: the upload was stored,
    the tool ran, the upload was deleted. *)
Definition files_at_download (env : environment) (inputPath outputPath : jstring)
  (fs : gset jstring) : gset jstring :=
  (if writes_output (child env)
   then {[outputPath]} ∪ ({[inputPath]} ∪ fs)
   else {[inputPath]} ∪ fs) ∖ {[inputPath]}.

(** The handler starts the download of [outputPath]: the request is on the
    success path of the callback of [exec] (lines 618-631). *)
Definition streams (outputPath : jstring) (t : list event) : bool :=
  existsb (fun e => match e with
                    | EvDownload p _ _ => bool_decide (p = outputPath)
                    | _ => false
                    end) t.

(** The tool ended by itself with exit status zero. *)
Definition exited_zero (s : child_exit) : bool :=
  match s with Exited 0 => true | _ => false end.

(** ** Sample requests *)

Definition sample_upload : upload :=
  {| originalname := js "my report (final).PDF";
     mimetype := js "application/pdf";
     content := [37; 80; 68; 70] |}.

(** A text file sent under the name of a picture. *)
Definition sample_not_a_pdf : upload :=
  {| originalname := js "holiday.jpg";
     mimetype := js "image/jpeg";
     content := [104; 101; 108; 108; 111] |}.

Definition sample_request (u : upload) (lvl : option jstring) : request :=
  {| pdfFile := Some u; body_compressionLevel := lvl |}.

(** The tool exits with zero and leaves its output. *)
Definition tool_ok : child_result :=
  {| child_status := Exited 0; child_stdout := []; child_stderr := [];
     writes_output := true |}.

(** The tool exits with one, prints a diagnostic and leaves a partial
    output. *)
Definition tool_fails : child_result :=
  {| child_status := Exited 1; child_stdout := [];
     child_stderr := js "Error: /undefined in /BXlevel";
     writes_output := true |}.

(** The tool exits with zero and leaves nothing. *)
Definition tool_silent : child_result :=
  {| child_status := Exited 0; child_stdout := []; child_stderr := [];
     writes_output := false |}.

Definition sample_env (c : child_result) (aborts : bool) : environment :=
  {| now_upload := 1700000000000; now_handler := 1700000000001;
     child := c; client_aborts := aborts |}.

(** ** The script of the page (lines 372-498 and 784-862)

    The page served at [/] carries the script that sends the form and
    saves the answer.  Both revisions read the file name to save under
    from the [content-disposition] header in the same way (lines 459-467
    and 836-842). *)

(** What [.] does not match: the line terminators. *)
Definition is_line_terminator (c : N) : bool :=
  (c =? 10) || (c =? 13) || (c =? 8232) || (c =? 8233).

(** The longest run, from the start of [s], of code units that [.]
    matches. *)
Fixpoint dot_run (s : jstring) : jstring :=
  match s with
  | [] => []
  | c :: t => if is_line_terminator c then [] else c :: dot_run t
  end.

(** [(.+)]: greedy, at least one code unit. *)
Definition dot_plus (s : jstring) : option jstring :=
  match dot_run s with
  | [] => None
  | c :: r => Some (c :: r)
  end.

(** [/"?(.+)"?/] from the place after [filename=]: the first [?] takes a
    quote when one is there and something follows it on the line; the
    group then runs to the end of the line, so that nothing is left for
    the second [?].  What is returned is the group. *)
Definition match_after_key (rest : jstring) : option jstring :=
  match rest with
  | c :: r =>
      if c =? c_dquote then
        match dot_plus r with
        | Some group => Some group
        | None => dot_plus rest
        end
      else dot_plus rest
  | [] => None
  end.

(** [s] starts with [filename=], in whatever case (the [i] flag). *)
Definition at_filename_key (s : jstring) : bool :=
  starts_with (js "FILENAME=") (map ascii_upper (take 9 s)).

(** [header.match(/filename="?(.+)"?/i)]: the group of the leftmost
    match, [None] when nothing matches. *)
Fixpoint match_filename (s : jstring) : option jstring :=
  match s with
  | [] => None
  | _ :: t =>
      if at_filename_key s then
        match match_after_key (drop 9 s) with
        | Some group => Some group
        | None => match_filename t
        end
      else match_filename t
  end.

(** Lines 837-842: the name the answer is saved under, from
    [response.headers.get('content-disposition')] ([None] for [null]). *)
Definition saved_filename (contentDisposition : option jstring) : jstring :=
  match contentDisposition with
  | Some (c :: h) =>
      match match_filename (c :: h) with
      | Some group => group
      | None => js "compressed.pdf"
      end
  | Some [] | None => js "compressed.pdf"
  end.

(** The [value]s of the options of [<select id="compressionLevel">]
    (lines 354-358 and 769-773), and the one marked [selected]. *)
Definition select_options : list jstring :=
  [js "little"; js "middle"; js "high"].
Definition selected_option : jstring := js "middle".

(** The form data of lines 448-450 and 829-831: the chosen file and the
    value of the select. *)
Definition form_request (file : upload) (value : jstring) : request :=
  {| pdfFile := Some file; body_compressionLevel := Some value |}.

(** ** Further notions *)

(** No two underscores side by side. *)
Fixpoint no_adjacent_underscores (s : jstring) : bool :=
  match s with
  | [] => true
  | c :: t =>
      match t with
      | d :: _ =>
          negb ((c =? c_underscore) && (d =? c_underscore))
          && no_adjacent_underscores t
      | [] => true
      end
  end.

(** A base name on which the three replacements of lines 581-583 find
    nothing to do: only code units of the class, no underscore at either
    end, no two underscores side by side. *)
Definition clean_base (s : jstring) : bool :=
  forallb is_word_hyphen s && no_adjacent_underscores s
  && negb (starts_with [c_underscore] s) && negb (ends_with [c_underscore] s).

(** A code unit that stands for itself between double quotes. *)
Definition quote_safe (c : N) : bool :=
  negb (c =? c_dquote) && negb (sh_meta_quoted c).

(** The status code an event puts on the wire: a JSON response carries
    its own, a download that gets as far as the headers carries 200. *)
Definition status_of (e : event) : option N :=
  match e with
  | EvJson s _ => Some s
  | EvDownload _ _ o => if headersSent o then Some 200 else None
  | _ => None
  end.

(** The status codes sent, oldest first. *)
Definition statuses (t : list event) : list N := omap status_of t.

(** The directories created, oldest first. *)
Definition mkdirs (t : list event) : list jstring :=
  omap (fun e => match e with EvMkdir d => Some d | _ => None end) t.

(** * Properties *)

(** ** Node's [path] module *)

(** The examples of Node's documentation. *)
Example extname_html : path.extname (js "index.html") = js ".html".
Proof. reflexivity. Qed.
Example extname_two : path.extname (js "index.coffee.md") = js ".md".
Proof. reflexivity. Qed.
Example extname_trailing_dot : path.extname (js "index.") = js ".".
Proof. reflexivity. Qed.
Example extname_none : path.extname (js "index") = [].
Proof. reflexivity. Qed.
Example extname_dotfile : path.extname (js ".index") = [].
Proof. reflexivity. Qed.
Example extname_dotfile_md : path.extname (js ".index.md") = js ".md".
Proof. reflexivity. Qed.
Example basename_full :
  path.basename (js "/foo/bar/baz/asdf/quux.html") [] = js "quux.html".
Proof. reflexivity. Qed.
Example basename_suffix :
  path.basename (js "/foo/bar/baz/asdf/quux.html") (js ".html") = js "quux".
Proof. reflexivity. Qed.

(** ** Strings *)

Lemma replace_outside_Forall (keep : N -> bool) s :
  keep c_underscore = true ->
  Forall (fun c => keep c = true) (replace_outside keep s).
Proof.
  intros Hus. unfold replace_outside. apply Forall_map.
  induction s as [|c s IH]; constructor; [|exact IH].
  simpl. destruct (keep c) eqn:E; [exact E | exact Hus].
Qed.

Lemma collapse_underscores_Forall (P : N -> Prop) s :
  Forall P s -> Forall P (collapse_underscores s).
Proof.
  induction s as [|c s IH]; intros H; [constructor|].
  apply Forall_cons in H as [Hc Hs]. specialize (IH Hs).
  simpl. destruct s as [|d s']; [by constructor|].
  destruct ((c =? c_underscore) && (d =? c_underscore)); [exact IH|].
  by constructor.
Qed.

Lemma strip_leading_Forall (P : N -> Prop) p s :
  Forall P s -> Forall P (strip_leading p s).
Proof.
  induction s as [|c s IH]; intros H; [constructor|].
  simpl. destruct (p c); [|exact H].
  apply IH. by apply Forall_cons in H as [_ ?].
Qed.

Lemma strip_trailing_Forall (P : N -> Prop) p s :
  Forall P s -> Forall P (strip_trailing p s).
Proof.
  intros H. unfold strip_trailing.
  apply Forall_rev, strip_leading_Forall, Forall_rev, H.
Qed.

Lemma strip_underscores_Forall (P : N -> Prop) s :
  Forall P s -> Forall P (strip_underscores s).
Proof.
  intros H. unfold strip_underscores.
  by apply strip_trailing_Forall, strip_leading_Forall.
Qed.

Lemma forallb_Forall_true (f : N -> bool) s :
  Forall (fun c => f c = true) s -> forallb f s = true.
Proof.
  induction 1 as [|c s Hc _ IH]; [done|]. simpl. by rewrite Hc, IH.
Qed.

Lemma Forall_of_forallb (f : N -> bool) s :
  forallb f s = true -> Forall (fun c => f c = true) s.
Proof.
  induction s as [|c s IH]; simpl; intros H; [constructor|].
  apply andb_prop in H as [Hc Hs]. constructor; [exact Hc | by apply IH].
Qed.

Lemma or_else_nonempty a b : nonempty b = true -> nonempty (or_else a b) = true.
Proof. by destruct a. Qed.

Lemma or_else_Forall (P : N -> Prop) a b :
  Forall P a -> Forall P b -> Forall P (or_else a b).
Proof. by destruct a. Qed.

(** Whatever base name goes in, what comes out of lines 581-583 holds only
    code units of the class of line 581. *)
Lemma sanitizedBaseName_class baseName :
  Forall (fun c => is_word_hyphen c = true) (V2.sanitizedBaseName baseName).
Proof.
  unfold V2.sanitizedBaseName.
  apply strip_underscores_Forall, collapse_underscores_Forall.
  by apply replace_outside_Forall.
Qed.

Lemma finalBaseName_class originalname :
  Forall (fun c => is_word_hyphen c = true) (V2.finalBaseName originalname).
Proof.
  unfold V2.finalBaseName. apply or_else_Forall.
  - apply sanitizedBaseName_class.
  - by apply Forall_of_forallb.
Qed.

Lemma finalBaseName_nonempty originalname :
  nonempty (V2.finalBaseName originalname) = true.
Proof. unfold V2.finalBaseName. by apply or_else_nonempty. Qed.

(** The sanitizer of the second revision: for every file name the client
    may send, [finalBaseName] is a non-empty string over [[A-Za-z0-9_-]]. *)
Lemma V2_finalBaseName_matches originalname :
  matches_word_hyphen_plus (V2.finalBaseName originalname) = true.
Proof.
  unfold matches_word_hyphen_plus.
  rewrite finalBaseName_nonempty. cbn [andb].
  apply forallb_Forall_true, finalBaseName_class.
Qed.

(** The four names the spec lists, and a name outside ASCII. *)
Example finalBaseName_empty : V2.finalBaseName [] = js "untitled".
Proof. reflexivity. Qed.
Example finalBaseName_dot : V2.finalBaseName (js ".") = js "compressed_document".
Proof. reflexivity. Qed.
Example finalBaseName_dots_pdf :
  V2.finalBaseName (js "...pdf") = js "compressed_document".
Proof. reflexivity. Qed.
Example finalBaseName_report :
  V2.finalBaseName (js "my report (final).PDF") = js "my_report_final".
Proof. reflexivity. Qed.
(** [résumé.pdf], with U+00E9 twice. *)
Example finalBaseName_unicode :
  V2.finalBaseName ([114; 233; 115; 117; 109; 233] ++ js ".pdf") = js "r_sum".
Proof. reflexivity. Qed.

(** C2. For every client-supplied file name the sanitizer returns a
    non-empty string matching [^[A-Za-z0-9_-]+$].  The sanitizer of the
    first revision (lines 48-50) breaks this: the name [.pdf] gives the
    empty string, and the name [a.b.pdf] gives [a.b], which holds a dot.
    The sanitizer of the second revision does what the claim says
    ([V2_finalBaseName_matches]). *)
Theorem C2_v1_sanitizer_empty_or_dotted :
  V1.originalNameSanitized (js ".pdf") = []
  /\ matches_word_hyphen_plus (V1.originalNameSanitized (js ".pdf")) = false
  /\ V1.originalNameSanitized (js "a.b.pdf") = js "a.b"
  /\ matches_word_hyphen_plus (V1.originalNameSanitized (js "a.b.pdf")) = false
  /\ matches_word_hyphen_plus (V2.finalBaseName (js ".pdf")) = true
  /\ matches_word_hyphen_plus (V2.finalBaseName (js "a.b.pdf")) = true.
Proof. repeat split; reflexivity. Qed.

(** ** The profile table *)

Lemma compressionSettings_other key :
  key ∉ own_levels -> compressionSettings !! key = None.
Proof.
  intros H. unfold compressionSettings, own_levels in *.
  rewrite !lookup_insert_ne, lookup_empty; [done|..];
    intros <-; apply H; set_solver.
Qed.

Lemma profile_lookup_Found key p :
  profile_lookup key = Found p ->
  (key = js "little" /\ p = little) \/ (key = js "middle" /\ p = middle)
  \/ (key = js "high" /\ p = high).
Proof.
  unfold profile_lookup. intros H.
  destruct (decide (key ∈ own_levels)) as [Hin|Hout].
  - unfold own_levels in Hin.
    apply elem_of_cons in Hin as [->|Hin]; [left; split; [done|]; by inversion H|].
    apply elem_of_cons in Hin as [->|Hin];
      [right; left; split; [done|]; by inversion H|].
    apply elem_of_cons in Hin as [->|Hin];
      [right; right; split; [done|]; by inversion H|].
    by apply elem_of_nil in Hin.
  - rewrite (compressionSettings_other _ Hout) in H. by case_bool_decide.
Qed.

(** C1, as the spec words it, fails on the table of the program: its keys
    are [little], [middle] and [high], so [low] and [medium] are not found,
    and the level taken when the request has none is [middle]. *)
Lemma C1_low_and_medium_not_found :
  profile_lookup (js "low") = NotFound
  /\ profile_lookup (js "medium") = NotFound
  /\ compressionLevel {| pdfFile := None; body_compressionLevel := None |}
     <> js "medium".
Proof. repeat split; [reflexivity..|discriminate]. Qed.

(** C1, amended.  The table has exactly three own levels, [little],
    [middle] and [high]; their profiles are distinct, carry the directives
    [/screen], [/ebook] and [/printer], and the resolutions 72 < 150 < 300;
    a key that is none of the three (and not the name of a member that
    every object inherits) is not found, [bogus], [low] and [medium] among
    them; a request without a level field takes [middle]. *)
Theorem C1_profile_table :
  dom compressionSettings = list_to_set own_levels
  /\ profile_lookup (js "little") = Found little
  /\ profile_lookup (js "middle") = Found middle
  /\ profile_lookup (js "high") = Found high
  /\ little <> middle /\ middle <> high /\ little <> high
  /\ level little = js "/screen" /\ level middle = js "/ebook"
  /\ level high = js "/printer"
  /\ parse_decimal (imageResolution little) = 72
  /\ parse_decimal (imageResolution middle) = 150
  /\ parse_decimal (imageResolution high) = 300
  /\ parse_decimal (imageResolution little)
       < parse_decimal (imageResolution middle)
       < parse_decimal (imageResolution high)
  /\ (forall key, key ∉ own_levels -> key ∉ Object_prototype_names ->
        profile_lookup key = NotFound)
  /\ profile_lookup (js "bogus") = NotFound
  /\ (forall req, body_compressionLevel req = None ->
        compressionLevel req = js "middle").
Proof.
  split.
  { unfold compressionSettings, own_levels.
    rewrite !dom_insert_L, dom_empty_L. simpl. set_solver. }
  do 3 (split; [reflexivity|]).
  do 3 (split; [discriminate|]).
  do 6 (split; [reflexivity|]).
  split; [by vm_compute|].
  split.
  { intros key Hown Hproto. unfold profile_lookup.
    rewrite (compressionSettings_other _ Hown).
    by rewrite bool_decide_eq_false_2. }
  split; [reflexivity|].
  intros req H. unfold compressionLevel. by rewrite H.
Qed.

Lemma C1_profile_table_witness :
  profile_lookup (js "nonsense") = NotFound
  /\ compressionLevel {| pdfFile := None; body_compressionLevel := None |}
     = js "middle".
Proof.
  destruct C1_profile_table
    as (_ & _ & _ & _ & _ & _ & _ & _ & _ & _ & _ & _ & _ & _ & Hother & _ & Hdef).
  split.
  - apply Hother; vm_compute; intros H;
      repeat (apply elem_of_cons in H as [H|H]; [discriminate H|]);
      by apply elem_of_nil in H.
  - by apply Hdef.
Defined.

(** ** The primitives: what they do to the files *)

Lemma seq_action_apply (a b : action) w : (a >>> b) w = b (a w).
Proof. reflexivity. Qed.

Lemma files_emit e w : files (emit e w) = files w.
Proof. reflexivity. Qed.

Lemma files_ensure_dir d w : files (ensure_dir d w) = files w.
Proof. unfold ensure_dir. by destruct (bool_decide (d ∈ dirs w)). Qed.

Lemma files_create_file p w : files (create_file p w) = {[p]} ∪ files w.
Proof. reflexivity. Qed.

Lemma keeps_files_skip : keeps_files skip.
Proof. by intros w. Qed.

Lemma keeps_files_console s m : keeps_files (console s m).
Proof. by intros w. Qed.

Lemma keeps_files_res_json s m : keeps_files (res_json s m).
Proof. by intros w. Qed.

Lemma keeps_files_when b a : keeps_files a -> keeps_files (when b a).
Proof. intros H w. destruct b; [apply H | done]. Qed.

Lemma keeps_files_seq a b : keeps_files a -> keeps_files b -> keeps_files (a >>> b).
Proof. intros Ha Hb w. unfold seq_action. by rewrite Hb, Ha. Qed.

Create HintDb files.
#[local] Hint Resolve keeps_files_skip keeps_files_console keeps_files_res_json
  keeps_files_when keeps_files_seq : files.

(** [fs.unlink] leaves no file at the path, whether one was there or not. *)
Lemma files_fs_unlink p on_error w :
  keeps_files on_error ->
  files (fs_unlink p on_error w) = files w ∖ {[p]}.
Proof.
  intros H. unfold fs_unlink. destruct (decide (p ∈ files w)) as [Hin|Hout].
  - by rewrite bool_decide_eq_true_2.
  - rewrite bool_decide_eq_false_2 by done.
    rewrite H, files_emit. set_solver.
Qed.

(** ** The primitives: what they add to the trace

    [f] observes the trace; the lemmas hold for an observer that sees
    neither directories, nor stored uploads, nor deletions, nor the
    console, as the three observers [exec_commands], [json_responses] and
    [downloads] do. *)

Section observers.

Context {A : Type} (f : event -> option A).
Hypothesis f_mkdir : forall d, f (EvMkdir d) = None.
Hypothesis f_store : forall p, f (EvStore p) = None.
Hypothesis f_unlink : forall p, f (EvUnlink p) = None.
Hypothesis f_console : forall s m, f (EvConsole s m) = None.

Lemma obs_emit e w :
  omap f (trace (emit e w)) = omap f (trace w) ++ seen f e.
Proof.
  unfold emit, seen. simpl. rewrite omap_app. simpl.
  by destruct (f e).
Qed.

Lemma obs_create_file p w :
  omap f (trace (create_file p w)) = omap f (trace w).
Proof. reflexivity. Qed.

Lemma obs_ensure_dir d w :
  omap f (trace (ensure_dir d w)) = omap f (trace w).
Proof.
  unfold ensure_dir. destruct (bool_decide (d ∈ dirs w)); [done|].
  rewrite obs_emit. unfold seen. rewrite f_mkdir. simpl.
  by rewrite app_nil_r.
Qed.

Lemma unseen_skip : unseen f skip.
Proof. by intros w. Qed.

Lemma unseen_console s m : unseen f (console s m).
Proof.
  intros w. unfold console. rewrite obs_emit. unfold seen.
  rewrite f_console. simpl. by rewrite app_nil_r.
Qed.

Lemma unseen_when b a : unseen f a -> unseen f (when b a).
Proof. intros H w. destruct b; [apply H | done]. Qed.

Lemma obs_res_json s m w :
  omap f (trace (res_json s m w)) = omap f (trace w) ++ seen f (EvJson s m).
Proof. apply obs_emit. Qed.

Lemma obs_fs_unlink p on_error w :
  unseen f on_error ->
  omap f (trace (fs_unlink p on_error w)) = omap f (trace w).
Proof.
  intros H. unfold fs_unlink.
  assert (omap f (trace (emit (EvUnlink p) w)) = omap f (trace w)) as He.
  { rewrite obs_emit. unfold seen. rewrite f_unlink. simpl.
    by rewrite app_nil_r. }
  destruct (bool_decide (p ∈ files w)); [|by rewrite H].
  rewrite <- He. unfold emit. simpl. by rewrite !omap_app.
Qed.


(** *** The callbacks and the handler of the second revision *)

Lemma V2_obs_download_callback p o w :
  omap f (trace (V2.download_callback p o w)) = omap f (trace w).
Proof.
  unfold V2.download_callback. rewrite seq_action_apply.
  rewrite obs_fs_unlink by apply unseen_console.
  apply unseen_when, unseen_console.
Qed.

Lemma V2_obs_exec_callback env inputPath outputPath name error w :
  omap f (trace (V2.exec_callback env inputPath outputPath name error w))
  = omap f (trace w) ++
    match error with
    | Some message =>
        seen f (EvJson 500
                  (js "Error compressing PDF. Ghostscript stderr: "
                   ++ or_else (child_stderr (child env)) message))
    | None =>
        seen f (EvDownload outputPath name
                  (download_outcome_of env outputPath
                     (files w ∖ {[inputPath]})))
    end.
Proof.
  unfold V2.exec_callback. rewrite seq_action_apply.
  set (w1 := fs_unlink inputPath _ w).
  assert (omap f (trace w1) = omap f (trace w)) as Ht
    by (apply obs_fs_unlink, unseen_console).
  assert (files w1 = files w ∖ {[inputPath]}) as Hf
    by (apply files_fs_unlink; auto with files).
  clearbody w1. destruct error as [message|].
  - rewrite !seq_action_apply, obs_res_json.
    rewrite obs_fs_unlink by apply unseen_skip.
    by rewrite !unseen_console, Ht.
  - rewrite !seq_action_apply. unfold res_download.
    rewrite V2_obs_download_callback, obs_emit.
    rewrite unseen_console, (unseen_when _ _ (unseen_console _ _)), Ht.
    by rewrite keeps_files_console,
      (keeps_files_when _ _ (keeps_files_console _ _)), Hf.
Qed.

End observers.

Lemma V2_files_download_callback p o w :
  files (V2.download_callback p o w) = files w ∖ {[p]}.
Proof.
  unfold V2.download_callback. rewrite seq_action_apply.
  rewrite files_fs_unlink by auto with files.
  by rewrite (keeps_files_when _ _ (keeps_files_console _ _)).
Qed.

Lemma V2_files_exec_callback env inputPath outputPath name error w :
  files (V2.exec_callback env inputPath outputPath name error w)
  = files w ∖ {[inputPath]} ∖ {[outputPath]}.
Proof.
  unfold V2.exec_callback. rewrite seq_action_apply.
  set (w1 := fs_unlink inputPath _ w).
  assert (files w1 = files w ∖ {[inputPath]}) as Hf
    by (apply files_fs_unlink; auto with files).
  clearbody w1. destruct error as [message|].
  - rewrite !seq_action_apply, keeps_files_res_json.
    rewrite files_fs_unlink by auto with files.
    by rewrite !keeps_files_console, Hf.
  - rewrite !seq_action_apply. unfold res_download.
    rewrite V2_files_download_callback, files_emit, keeps_files_console.
    by rewrite (keeps_files_when _ _ (keeps_files_console _ _)), Hf.
Qed.

(** ** The command line and the shell *)

Lemma path_safe_cases c :
  path_safe c = true ->
  (48 <= c <= 57) \/ (65 <= c <= 90) \/ (97 <= c <= 122)
  \/ c = 45 \/ c = 46 \/ c = 47 \/ c = 95.
Proof.
  unfold path_safe, is_word_dot_hyphen, is_alnum, is_lower, is_upper, is_digit,
    c_dot, c_underscore, c_hyphen, c_slash.
  rewrite !orb_true_iff, !andb_true_iff, !N.leb_le, !N.eqb_eq. lia.
Qed.

(** A code unit of a path is neither white space, nor a quote, nor any of
    the code units that mean something to the shell. *)
Lemma path_safe_not_special c :
  path_safe c = true ->
  sh_blank c = false /\ (c =? c_dquote) = false
  /\ sh_meta c = false /\ sh_meta_quoted c = false.
Proof.
  intros H. apply path_safe_cases in H.
  unfold sh_blank, sh_meta, sh_meta_quoted, c_dquote.
  repeat split.
  - rewrite !orb_false_iff, !N.eqb_neq. lia.
  - apply N.eqb_neq. lia.
  - rewrite bool_decide_eq_false_2; [done|].
    rewrite !elem_of_cons, elem_of_nil. lia.
  - rewrite bool_decide_eq_false_2; [done|].
    rewrite !elem_of_cons, elem_of_nil. lia.
Qed.

Lemma sh_step_quoted_safe c acc ws :
  path_safe c = true ->
  sh_step {| mode := InDouble; cur := Some acc; words := ws |} c
  = Some {| mode := InDouble; cur := Some (c :: acc); words := ws |}.
Proof.
  intros H. apply path_safe_not_special in H as (_ & Hq & _ & Hm).
  unfold sh_step. simpl. by rewrite Hq, Hm.
Qed.

(** Between double quotes a path is read as it is. *)
Lemma sh_run_quoted_safe s acc ws :
  Forall (fun c => path_safe c = true) s ->
  sh_run s {| mode := InDouble; cur := Some acc; words := ws |}
  = Some {| mode := InDouble; cur := Some (rev s ++ acc); words := ws |}.
Proof.
  intros H. revert acc. induction H as [|c s Hc _ IH]; intros acc; [done|].
  simpl sh_run. rewrite (sh_step_quoted_safe c acc ws Hc), IH.
  simpl rev. by rewrite <- app_assoc.
Qed.

Lemma sh_run_app a b st :
  sh_run (a ++ b) st
  = match sh_run a st with Some st' => sh_run b st' | None => None end.
Proof.
  revert st. induction a as [|c a IH]; intros st; [done|].
  simpl. by destruct (sh_step st c).
Qed.

Lemma gsCommand_split settings outputPath inputPath :
  gsCommand settings outputPath inputPath
  = gs_head settings ++ outputPath ++ [c_dquote; c_space; c_dquote]
    ++ inputPath ++ [c_dquote].
Proof. unfold gsCommand, gs_head. by rewrite <- !app_assoc. Qed.

Lemma sh_run_close_quote w ws :
  sh_run [c_dquote] {| mode := InDouble; cur := w; words := ws |}
  = Some {| mode := Bare; cur := w; words := ws |}.
Proof. reflexivity. Qed.

Lemma rev_two_more (l : list jstring) a b :
  rev (a :: b :: rev l) = l ++ [b; a].
Proof. simpl. by rewrite rev_involutive, <- app_assoc. Qed.

(** What the property read of line 550 can return. *)
Lemma profile_lookup_cases key :
  profile_lookup key = Found little \/ profile_lookup key = Found middle
  \/ profile_lookup key = Found high
  \/ profile_lookup key = Inherited key \/ profile_lookup key = NotFound.
Proof.
  destruct (profile_lookup key) as [p|name|] eqn:E.
  - destruct (profile_lookup_Found _ _ E) as [[_ ->]|[[_ ->]|[_ ->]]]; auto.
  - unfold profile_lookup in E.
    destruct (compressionSettings !! key); [discriminate|].
    case_bool_decide; [|discriminate]. inversion E. auto.
  - auto.
Qed.

(** The head of the command line, read by the shell, for whatever the
    table returned: eleven words are complete and the twelfth is open. *)
Lemma sh_run_gs_head key :
  sh_run (gs_head (profile_lookup key))
    {| mode := Bare; cur := None; words := [] |}
  = Some {| mode := InDouble;
            cur := Some (rev (js "-sOutputFile="));
            words := rev (take 11
                       (gs_words (settings_level (profile_lookup key))
                          (settings_imageResolution (profile_lookup key))
                          [] [])) |}.
Proof.
  destruct (profile_lookup_cases key) as [-> |[-> |[-> |[-> | ->]]]];
    by vm_compute.
Qed.

(** The shell reads the command line as the thirteen words of [gs_words]
    whenever the two paths hold only code units of [path_safe]. *)
Lemma sh_words_gsCommand key outputPath inputPath :
  Forall (fun c => path_safe c = true) outputPath ->
  Forall (fun c => path_safe c = true) inputPath ->
  sh_words (gsCommand (profile_lookup key) outputPath inputPath)
  = Some (gs_words (settings_level (profile_lookup key))
            (settings_imageResolution (profile_lookup key))
            outputPath inputPath).
Proof.
  intros Hout Hin. unfold sh_words.
  rewrite gsCommand_split, sh_run_app, sh_run_gs_head.
  set (head := take 11 _).
  rewrite sh_run_app, (sh_run_quoted_safe _ _ _ Hout).
  change (sh_run ([c_dquote; c_space; c_dquote] ++ inputPath ++ [c_dquote])
            {| mode := InDouble;
               cur := Some (rev outputPath ++ rev (js "-sOutputFile="));
               words := rev head |})
    with (sh_run (inputPath ++ [c_dquote])
            {| mode := InDouble; cur := Some [];
               words := rev (rev outputPath ++ rev (js "-sOutputFile="))
                        :: rev head |}).
  rewrite sh_run_app, (sh_run_quoted_safe _ _ _ Hin), sh_run_close_quote.
  unfold sh_finish. cbn [mode cur words sh_flush].
  rewrite rev_two_more, app_nil_r, rev_app_distr, !rev_involutive.
  reflexivity.
Qed.

(** The tool is told to write the output path of the handler. *)
Lemma output_file_of_gsCommand key outputPath inputPath :
  Forall (fun c => path_safe c = true) outputPath ->
  Forall (fun c => path_safe c = true) inputPath ->
  output_file_of (gsCommand (profile_lookup key) outputPath inputPath)
  = Some outputPath.
Proof.
  intros Hout Hin. unfold output_file_of.
  rewrite (sh_words_gsCommand key _ _ Hout Hin).
  destruct (profile_lookup_cases key) as [-> |[-> |[-> |[-> | ->]]]];
    reflexivity.
Qed.

(** *** What the two paths are made of *)

Lemma digits_of_uint_digits d :
  Forall (fun c => is_digit c = true) (digits_of_uint d).
Proof. induction d; simpl; by constructor. Qed.

Lemma Number_toString_digits n :
  Forall (fun c => is_digit c = true) (Number_toString n).
Proof. apply digits_of_uint_digits. Qed.

Lemma is_digit_path_safe c : is_digit c = true -> path_safe c = true.
Proof.
  unfold path_safe, is_word_dot_hyphen, is_alnum. intros ->.
  by rewrite !orb_true_r.
Qed.

Lemma is_word_hyphen_path_safe c : is_word_hyphen c = true -> path_safe c = true.
Proof.
  unfold path_safe, is_word_dot_hyphen, is_word_hyphen.
  rewrite !orb_true_iff. tauto.
Qed.

Lemma is_word_dot_hyphen_path_safe c :
  is_word_dot_hyphen c = true -> path_safe c = true.
Proof. unfold path_safe. by intros ->. Qed.

Lemma V2_file_path_safe now originalname :
  Forall (fun c => path_safe c = true) (V2.file_path now originalname).
Proof.
  change (V2.file_path now originalname)
    with (js "uploads/" ++ Number_toString now ++ js "-"
          ++ replace_outside is_word_dot_hyphen originalname).
  repeat apply Forall_app_2.
  - by apply Forall_of_forallb.
  - eapply Forall_impl; [apply Number_toString_digits|].
    apply is_digit_path_safe.
  - by apply Forall_of_forallb.
  - eapply Forall_impl; [by apply replace_outside_Forall|].
    apply is_word_dot_hyphen_path_safe.
Qed.

Lemma V2_outputPath_safe now originalname :
  Forall (fun c => path_safe c = true) (V2.outputPath now originalname).
Proof.
  change (V2.outputPath now originalname)
    with (js "compressed_pdfs/compressed-" ++ Number_toString now ++ js "-"
          ++ V2.finalBaseName originalname ++ js ".pdf").
  repeat apply Forall_app_2.
  - by apply Forall_of_forallb.
  - eapply Forall_impl; [apply Number_toString_digits|].
    apply is_digit_path_safe.
  - by apply Forall_of_forallb.
  - eapply Forall_impl; [apply finalBaseName_class|].
    apply is_word_hyphen_path_safe.
  - by apply Forall_of_forallb.
Qed.

(** ** One request of the second revision *)

Lemma V2_files_upload_single env req u w :
  pdfFile req = Some u ->
  files (V2.upload_single env req w)
  = {[V2.file_path (now_upload env) (originalname u)]} ∪ files w.
Proof.
  intros Hu. unfold V2.upload_single. rewrite Hu.
  rewrite !seq_action_apply, files_create_file, files_emit.
  by rewrite files_ensure_dir.
Qed.

(** A request with a file and a level that the table answers leaves
    neither its upload nor its output behind, however the tool ends and
    however the download goes. *)
Lemma trace_run_tool env cmd w : trace (run_tool env cmd w) = trace w.
Proof.
  unfold run_tool. destruct (output_file_of cmd); [|done].
  by destruct (writes_output (child env)).
Qed.

(** On the command line of the handler the tool writes, if it writes, the
    output path of the handler. *)
Lemma V2_files_run_tool env key now_in now_out originalname w :
  files (run_tool env
           (gsCommand (profile_lookup key)
              (V2.outputPath now_out originalname)
              (V2.file_path now_in originalname)) w)
  = if writes_output (child env)
    then {[V2.outputPath now_out originalname]} ∪ files w
    else files w.
Proof.
  unfold run_tool.
  rewrite output_file_of_gsCommand
    by (apply V2_outputPath_safe || apply V2_file_path_safe).
  by destruct (writes_output (child env)).
Qed.

Lemma V2_files_request env req u w :
  pdfFile req = Some u ->
  truthy (profile_lookup (compressionLevel req)) = true ->
  files (V2.post_compress_pdf env req w)
  = files w ∖ {[V2.file_path (now_upload env) (originalname u)]}
            ∖ {[V2.outputPath (now_handler env) (originalname u)]}.
Proof.
  intros Hu Ht. unfold V2.post_compress_pdf. rewrite seq_action_apply.
  pose proof (V2_files_upload_single env req u w Hu) as Hup.
  set (w0 := V2.upload_single env req w) in *. clearbody w0.
  unfold V2.handler. rewrite Hu, Ht. cbn [negb]. cbv beta iota zeta.
  rewrite !seq_action_apply. unfold exec. rewrite !seq_action_apply.
  rewrite V2_files_exec_callback, V2_files_run_tool.
  destruct (writes_output (child env));
    rewrite files_emit, keeps_files_console, files_ensure_dir, Hup;
    set_solver.
Qed.

Section V2_request.

Context {A : Type} (f : event -> option A).
Hypothesis f_mkdir : forall d, f (EvMkdir d) = None.
Hypothesis f_store : forall p, f (EvStore p) = None.
Hypothesis f_unlink : forall p, f (EvUnlink p) = None.
Hypothesis f_console : forall s m, f (EvConsole s m) = None.

Lemma V2_obs_upload_single env req w :
  omap f (trace (V2.upload_single env req w)) = omap f (trace w).
Proof.
  unfold V2.upload_single. destruct (pdfFile req) as [u|]; [|done].
  rewrite !seq_action_apply, obs_create_file, obs_emit.
  rewrite obs_ensure_dir by done.
  unfold seen. rewrite f_store. simpl. by rewrite app_nil_r.
Qed.

(** What an observer sees of a request with a file and a level that the
    table answers: one [exec], then either the 500 response or the
    download. *)
Lemma V2_obs_request env req u w :
  pdfFile req = Some u ->
  truthy (profile_lookup (compressionLevel req)) = true ->
  let inputPath := V2.file_path (now_upload env) (originalname u) in
  let outputPath := V2.outputPath (now_handler env) (originalname u) in
  let name := V2.outputFileName (now_handler env) (originalname u) in
  let cmd :=
    gsCommand (profile_lookup (compressionLevel req)) outputPath inputPath in
  omap f (trace (V2.post_compress_pdf env req w))
  = omap f (trace w) ++ seen f (EvExec cmd) ++
    match exec_error cmd (child env) with
    | Some message =>
        seen f (EvJson 500
                  (js "Error compressing PDF. Ghostscript stderr: "
                   ++ or_else (child_stderr (child env)) message))
    | None =>
        seen f (EvDownload outputPath name
                  (download_outcome_of env outputPath
                     (files_at_download env inputPath outputPath (files w))))
    end.
Proof.
  intros Hu Ht inputPath outputPath name cmd.
  unfold V2.post_compress_pdf. rewrite seq_action_apply.
  pose proof (V2_files_upload_single env req u w Hu) as Hup.
  pose proof (V2_obs_upload_single env req w) as Hobs.
  set (w0 := V2.upload_single env req w) in *. clearbody w0.
  unfold V2.handler. rewrite Hu, Ht. cbn [negb]. cbv beta iota zeta.
  fold inputPath outputPath name cmd.
  rewrite !seq_action_apply. unfold exec. rewrite !seq_action_apply.
  rewrite V2_obs_exec_callback by done.
  rewrite trace_run_tool, obs_emit, unseen_console by done.
  rewrite obs_ensure_dir, Hobs by done.
  rewrite <- app_assoc. do 2 f_equal.
  destruct (exec_error cmd (child env)); [done|].
  do 3 f_equal. unfold files_at_download. subst cmd inputPath outputPath.
  rewrite V2_files_run_tool.
  by destruct (writes_output (child env));
    rewrite files_emit, keeps_files_console, files_ensure_dir, Hup.
Qed.

(** What an observer sees of a request with a file and a level that the
    table does not answer: the 400 response only. *)
Lemma V2_obs_request_invalid env req u w :
  pdfFile req = Some u ->
  truthy (profile_lookup (compressionLevel req)) = false ->
  omap f (trace (V2.post_compress_pdf env req w))
  = omap f (trace w) ++
    seen f (EvJson 400
      (js "Invalid compression level. Choose from: little, middle, high.")).
Proof.
  intros Hu Ht. unfold V2.post_compress_pdf. rewrite seq_action_apply.
  unfold V2.handler. rewrite Hu, Ht. cbn [negb]. cbv beta iota zeta.
  rewrite seq_action_apply, obs_res_json.
  rewrite obs_fs_unlink by (done || by apply unseen_console).
  by rewrite V2_obs_upload_single.
Qed.

End V2_request.

(** The three observers of a request with a file and a level that the
    table answers. *)

Lemma exec_error_None cmd r :
  exec_error cmd r = None <-> child_status r = Exited 0.
Proof.
  unfold exec_error. destruct (child_status r) as [[|c]| |m]; split; done.
Qed.

Lemma V2_exec_commands_request env req u w :
  pdfFile req = Some u ->
  truthy (profile_lookup (compressionLevel req)) = true ->
  exec_commands (trace (V2.post_compress_pdf env req w))
  = exec_commands (trace w) ++
    [gsCommand (profile_lookup (compressionLevel req))
       (V2.outputPath (now_handler env) (originalname u))
       (V2.file_path (now_upload env) (originalname u))].
Proof.
  intros Hu Ht. unfold exec_commands.
  rewrite (V2_obs_request _ (fun _ => eq_refl) (fun _ => eq_refl)
             (fun _ => eq_refl) (fun _ _ => eq_refl) env req u w Hu Ht).
  unfold seen. by destruct (exec_error _ _).
Qed.

Lemma V2_json_responses_request env req u w :
  pdfFile req = Some u ->
  truthy (profile_lookup (compressionLevel req)) = true ->
  json_responses (trace (V2.post_compress_pdf env req w))
  = json_responses (trace w) ++
    match exec_error
            (gsCommand (profile_lookup (compressionLevel req))
               (V2.outputPath (now_handler env) (originalname u))
               (V2.file_path (now_upload env) (originalname u)))
            (child env) with
    | Some message =>
        [(500, js "Error compressing PDF. Ghostscript stderr: "
               ++ or_else (child_stderr (child env)) message)]
    | None => []
    end.
Proof.
  intros Hu Ht. unfold json_responses.
  rewrite (V2_obs_request _ (fun _ => eq_refl) (fun _ => eq_refl)
             (fun _ => eq_refl) (fun _ _ => eq_refl) env req u w Hu Ht).
  unfold seen. by destruct (exec_error _ _).
Qed.

Lemma V2_downloads_request env req u w :
  pdfFile req = Some u ->
  truthy (profile_lookup (compressionLevel req)) = true ->
  let inputPath := V2.file_path (now_upload env) (originalname u) in
  let outputPath := V2.outputPath (now_handler env) (originalname u) in
  downloads (trace (V2.post_compress_pdf env req w))
  = downloads (trace w) ++
    match exec_error
            (gsCommand (profile_lookup (compressionLevel req))
               outputPath inputPath) (child env) with
    | Some _ => []
    | None =>
        [(outputPath, V2.outputFileName (now_handler env) (originalname u),
          download_outcome_of env outputPath
            (files_at_download env inputPath outputPath (files w)))]
    end.
Proof.
  intros Hu Ht inputPath outputPath. unfold downloads.
  rewrite (V2_obs_request _ (fun _ => eq_refl) (fun _ => eq_refl)
             (fun _ => eq_refl) (fun _ _ => eq_refl) env req u w Hu Ht).
  unfold seen. fold inputPath outputPath. by destruct (exec_error _ _).
Qed.

(** The upload and the output never share a path: one is under [uploads],
    the other under [compressed_pdfs]. *)
Lemma V2_paths_differ now1 now2 name1 name2 :
  V2.file_path now1 name1 <> V2.outputPath now2 name2.
Proof.
  change (V2.file_path now1 name1)
    with (117 :: js "ploads/" ++ V2.storage_filename now1 name1).
  change (V2.outputPath now2 name2)
    with (99 :: js "ompressed_pdfs/" ++ V2.outputFileName now2 name2).
  intros H. by inversion H.
Qed.

Lemma output_at_download env inputPath outputPath fs :
  inputPath <> outputPath ->
  writes_output (child env) = true ->
  outputPath ∈ files_at_download env inputPath outputPath fs.
Proof.
  intros Hne Hw. unfold files_at_download. rewrite Hw. set_solver.
Qed.

(** ** The claims about the pipeline *)

(** C3. After a request whose tool run succeeded and left its output, the
    output is streamed and neither the staged upload nor the output is
    left: no file is there after the request that was not there before it.
    This holds when the download goes through and when the client goes
    away during it. *)
Theorem C3_success_leaves_no_files env req u w :
  pdfFile req = Some u ->
  truthy (profile_lookup (compressionLevel req)) = true ->
  child_status (child env) = Exited 0 ->
  writes_output (child env) = true ->
  let inputPath := V2.file_path (now_upload env) (originalname u) in
  let outputPath := V2.outputPath (now_handler env) (originalname u) in
  let w' := V2.post_compress_pdf env req w in
  downloads (trace w')
  = downloads (trace w) ++
    [(outputPath, V2.outputFileName (now_handler env) (originalname u),
      if client_aborts env then Aborted else Delivered)]
  /\ (inputPath ∉ files w') /\ (outputPath ∉ files w')
  /\ (files w' ⊆ files w).
Proof.
  intros Hu Ht Hexit Hout inputPath outputPath w'. subst w'.
  rewrite (V2_files_request env req u w Hu Ht).
  fold inputPath outputPath.
  split; [|set_solver].
  rewrite (V2_downloads_request env req u w Hu Ht).
  fold inputPath outputPath.
  rewrite (proj2 (exec_error_None _ _) Hexit).
  unfold download_outcome_of.
  rewrite bool_decide_eq_true_2; [done|].
  apply output_at_download; [apply V2_paths_differ | done].
Qed.

Lemma C3_success_leaves_no_files_witness :
  let env := sample_env tool_ok true in
  let req := sample_request sample_upload (Some (js "high")) in
  let w' := V2.post_compress_pdf env req empty_world in
  downloads (trace w')
  = [(V2.outputPath 1700000000001 (originalname sample_upload),
      V2.outputFileName 1700000000001 (originalname sample_upload), Aborted)]
  /\ (V2.file_path 1700000000000 (originalname sample_upload) ∉ files w')
  /\ (V2.outputPath 1700000000001 (originalname sample_upload) ∉ files w')
  /\ (files w' ⊆ ∅).
Proof.
  exact (C3_success_leaves_no_files (sample_env tool_ok true)
           (sample_request sample_upload (Some (js "high"))) sample_upload
           empty_world eq_refl eq_refl eq_refl eq_refl).
Defined.

(** The failure path of the second revision: a tool run that fails (an
    exit status other than zero, a signal, a failed launch) is answered
    with 500 and a message that carries the diagnostic text when there is
    one; no download starts; neither the staged upload nor a partial
    output is left. *)
Lemma V2_failure_cleanup env req u w :
  pdfFile req = Some u ->
  truthy (profile_lookup (compressionLevel req)) = true ->
  child_status (child env) <> Exited 0 ->
  let inputPath := V2.file_path (now_upload env) (originalname u) in
  let outputPath := V2.outputPath (now_handler env) (originalname u) in
  let w' := V2.post_compress_pdf env req w in
  (exists message,
     json_responses (trace w')
     = json_responses (trace w) ++
       [(500, js "Error compressing PDF. Ghostscript stderr: "
              ++ or_else (child_stderr (child env)) message)])
  /\ (child_stderr (child env) <> [] ->
      json_responses (trace w')
      = json_responses (trace w) ++
        [(500, js "Error compressing PDF. Ghostscript stderr: "
               ++ child_stderr (child env))])
  /\ downloads (trace w') = downloads (trace w)
  /\ (inputPath ∉ files w') /\ (outputPath ∉ files w')
  /\ (files w' ⊆ files w).
Proof.
  intros Hu Ht Hexit inputPath outputPath w'. subst w'.
  rewrite (V2_files_request env req u w Hu Ht).
  rewrite (V2_json_responses_request env req u w Hu Ht).
  rewrite (V2_downloads_request env req u w Hu Ht).
  fold inputPath outputPath.
  destruct (exec_error _ (child env)) as [message|] eqn:E;
    [|by apply exec_error_None in E].
  split; [by exists message|].
  split; [|split; [by rewrite app_nil_r | set_solver]].
  intros Hs. by destruct (child_stderr (child env)).
Qed.

(** C4. When the tool fails, the endpoint answers 500 with the diagnostic
    text, removes the partial output and deletes the staged upload.  The
    first revision (lines 72-78) answers and deletes the upload, but never
    deletes the output: after the request the partial output is still
    there.  The second revision deletes it (line 614,
    [V2_failure_cleanup]): on the same request it leaves nothing. *)
Theorem C4_v1_keeps_partial_output :
  let env := sample_env tool_fails false in
  let req := sample_request sample_upload (Some (js "middle")) in
  let w1 := V1.post_compress_pdf env req empty_world in
  let w2 := V2.post_compress_pdf env req empty_world in
  json_responses (trace w1)
  = [(500, js "Error compressing PDF: Error: /undefined in /BXlevel")]
  /\ elements (files w1)
     = [js "compressed_pdfs/compressed-1700000000001-my_report__final_.pdf"]
  /\ (V1.outputPath 1700000000001 (originalname sample_upload) ∈ files w1)
  /\ json_responses (trace w2)
     = [(500, js "Error compressing PDF. Ghostscript stderr: "
              ++ js "Error: /undefined in /BXlevel")]
  /\ elements (files w2) = [].
Proof.
  intros env req w1 w2.
  assert (elements (files w1)
          = [js "compressed_pdfs/compressed-1700000000001-my_report__final_.pdf"])
    as He by (by vm_compute).
  split; [by vm_compute|]. split; [exact He|].
  split; [|split; by vm_compute].
  apply elem_of_elements. rewrite He. by apply list_elem_of_singleton.
Qed.

(** The branch of lines 552-557.  A request with a file and a level for
    which the table has no answer gets 400 with a JSON message; [exec] is
    not called; the staged upload is there when the handler starts, its
    deletion is the first thing the handler does and the response comes
    after it; no file is there after the request that was not there
    before it. *)
Lemma V2_invalid_level_cleanup env req u w :
  pdfFile req = Some u ->
  truthy (profile_lookup (compressionLevel req)) = false ->
  let staged_path := V2.file_path (now_upload env) (originalname u) in
  let staged := V2.upload_single env req w in
  let w' := V2.post_compress_pdf env req w in
  staged_path ∈ files staged
  /\ trace w'
     = trace staged ++
       [EvUnlink staged_path;
        EvJson 400
          (js "Invalid compression level. Choose from: little, middle, high.")]
  /\ json_responses (trace w')
     = json_responses (trace w) ++
       [(400,
         js "Invalid compression level. Choose from: little, middle, high.")]
  /\ exec_commands (trace w') = exec_commands (trace w)
  /\ (staged_path ∉ files w') /\ (files w' ⊆ files w).
Proof.
  intros Hu Ht staged_path staged w'.
  assert (staged_path ∈ files staged) as Hin.
  { subst staged. rewrite (V2_files_upload_single env req u w Hu).
    set_solver. }
  assert (w' = emit (EvJson 400
                 (js "Invalid compression level. Choose from: little, middle, high."))
                 (emit (EvUnlink staged_path)
                    {| files := files staged ∖ {[staged_path]};
                       dirs := dirs staged; trace := trace staged |})) as Hw.
  { subst w'. unfold V2.post_compress_pdf. rewrite seq_action_apply.
    fold staged. unfold V2.handler. rewrite Hu, Ht. cbn [negb].
    cbv beta iota zeta. fold staged_path.
    rewrite seq_action_apply. unfold fs_unlink, res_json.
    by rewrite bool_decide_eq_true_2. }
  split; [exact Hin|]. split; [by rewrite Hw; simpl; rewrite <- app_assoc|].
  split.
  { subst w'. unfold json_responses.
    by rewrite (V2_obs_request_invalid _ (fun _ => eq_refl)
                  (fun _ => eq_refl) (fun _ => eq_refl) (fun _ _ => eq_refl)
                  env req u w Hu Ht). }
  split.
  { subst w'. unfold exec_commands.
    rewrite (V2_obs_request_invalid _ (fun _ => eq_refl)
               (fun _ => eq_refl) (fun _ => eq_refl) (fun _ _ => eq_refl)
               env req u w Hu Ht).
    apply app_nil_r. }
  rewrite Hw. simpl. subst staged.
  rewrite (V2_files_upload_single env req u w Hu). fold staged_path.
  set_solver.
Qed.

Example bogus_level_rejected :
  let env := sample_env tool_ok false in
  let req := sample_request sample_upload (Some (js "bogus")) in
  let w' := V2.post_compress_pdf env req empty_world in
  json_responses (trace w')
  = [(400, js "Invalid compression level. Choose from: little, middle, high.")]
  /\ exec_commands (trace w') = []
  /\ (files w' ⊆ ∅).
Proof.
  destruct (V2_invalid_level_cleanup (sample_env tool_ok false)
              (sample_request sample_upload (Some (js "bogus")))
              sample_upload empty_world eq_refl eq_refl)
    as (_ & _ & Hjson & Hexec & _ & Hfiles).
  exact (conj Hjson (conj Hexec Hfiles)).
Qed.

(** C5. A request with a file and a level that is none of the three gets
    400, no subprocess is invoked and the staged upload is deleted.  The
    guard of line 552 tests what the property read of line 550 returns,
    and that read also finds the members every object inherits: the level
    [constructor] is none of [little], [middle], [high] (the message of
    line 556 lists them), yet it passes the guard.  No 400 is sent, the
    tool is run with [undefined] for the directive and the resolutions,
    and the only response is the 500 of the failed run. *)
Theorem C5_inherited_level_not_rejected :
  let env := sample_env tool_fails false in
  let req := sample_request sample_upload (Some (js "constructor")) in
  let w' := V2.post_compress_pdf env req empty_world in
(js "constructor" ∉ own_levels)
  /\ profile_lookup (js "constructor") = Inherited (js "constructor")
  /\ truthy (profile_lookup (compressionLevel req)) = true
  /\ (option_map (fun ws => take 4 ws)
        (hd_error (omap sh_words (exec_commands (trace w'))))
      = Some [ js "gs"; js "-sDEVICE=pdfwrite";
               js "-dCompatibilityLevel=1.4"; js "-dPDFSETTINGS=undefined" ])
  /\ length (exec_commands (trace w')) = 1%nat
  /\ json_responses (trace w')
     = [(500, js "Error compressing PDF. Ghostscript stderr: "
              ++ js "Error: /undefined in /BXlevel")].
Proof.
  intros env req w'. split.
  { unfold own_levels. intros H.
    repeat (apply elem_of_cons in H as [H|H]; [discriminate H|]).
    by apply elem_of_nil in H. }
  repeat split; by vm_compute.
Qed.



(** C6, as the spec words it, fails: the tool exits with zero and leaves
    no output; the handler still logs the success and starts the download
    of a file that does not exist, and sends no response of its own. *)
Lemma C6_zero_exit_without_output_is_success :
  let env := sample_env tool_silent false in
  let req := sample_request sample_upload None in
  let outputPath := V2.outputPath (now_handler env) (originalname sample_upload) in
  let w' := V2.post_compress_pdf env req empty_world in
  ~ (streams outputPath (trace w') = true ->
     child_status (child env) = Exited 0
     /\ outputPath ∈ files_at_download env
          (V2.file_path (now_upload env) (originalname sample_upload))
          outputPath (files empty_world)).
Proof.
  intros env req outputPath w' H.
  destruct H as [_ Hin]; [by vm_compute|].
  revert Hin. by vm_compute.
Qed.

(** What the handler does in that run. *)
Example zero_exit_without_output_trace :
  let env := sample_env tool_silent false in
  let req := sample_request sample_upload None in
  let outputPath := V2.outputPath (now_handler env) (originalname sample_upload) in
  let w' := V2.post_compress_pdf env req empty_world in
  downloads (trace w')
  = [(outputPath,
      V2.outputFileName (now_handler env) (originalname sample_upload),
      Missing)]
  /\ json_responses (trace w') = []
  /\ trace w' !! 6%nat
     = Some (EvConsole Log (js "PDF compressed successfully: " ++ outputPath)).
Proof. repeat split; by vm_compute. Qed.

Lemma exited_zero_spec s : exited_zero s = true <-> s = Exited 0.
Proof. destruct s as [[|c]| |m]; split; done. Qed.

Lemma exec_error_exited_zero cmd r :
  exec_error cmd r = None <-> exited_zero (child_status r) = true.
Proof. by rewrite exec_error_None, exited_zero_spec. Qed.

(** C6, amended.  The handler takes the success path, and starts the
    download, exactly when the tool exits with status zero; it does not
    look for the output file: when the file is missing the download is
    started all the same and ends as [Missing]. *)
Theorem C6_success_is_zero_exit env req u w :
  pdfFile req = Some u ->
  truthy (profile_lookup (compressionLevel req)) = true ->
  let inputPath := V2.file_path (now_upload env) (originalname u) in
  let outputPath := V2.outputPath (now_handler env) (originalname u) in
  let w' := V2.post_compress_pdf env req w in
  let at_download := files_at_download env inputPath outputPath (files w) in
  downloads (trace w')
  = downloads (trace w) ++
    (if exited_zero (child_status (child env))
     then [(outputPath, V2.outputFileName (now_handler env) (originalname u),
            download_outcome_of env outputPath at_download)]
     else [])
  /\ (download_outcome_of env outputPath at_download = Missing
      <-> outputPath ∉ at_download).
Proof.
  intros Hu Ht inputPath outputPath w' at_download. subst w'. split.
  - rewrite (V2_downloads_request env req u w Hu Ht).
    fold inputPath outputPath at_download.
    destruct (exec_error _ (child env)) as [message|] eqn:E.
    + destruct (exited_zero _) eqn:Z; [|done].
      by rewrite (proj2 (exec_error_exited_zero _ _) Z) in E.
    + by rewrite (proj1 (exec_error_exited_zero _ _) E).
  - unfold download_outcome_of. case_bool_decide; [|done].
    split; [by destruct (client_aborts env)|done].
Qed.

Lemma C6_success_is_zero_exit_witness :
  let env := sample_env tool_silent false in
  let req := sample_request sample_upload None in
  let w' := V2.post_compress_pdf env req empty_world in
  downloads (trace w')
  = [(V2.outputPath 1700000000001 (originalname sample_upload),
      V2.outputFileName 1700000000001 (originalname sample_upload),
      Missing)].
Proof.
  exact (proj1 (C6_success_is_zero_exit (sample_env tool_silent false)
                  (sample_request sample_upload None) sample_upload
                  empty_world eq_refl eq_refl)).
Defined.

(** C9. A level field that is present and empty is not rejected: the
    handler takes [middle], the [/ebook] profile, and runs the tool with
    it; the only response it may send itself is the 500 of a failed run. *)
Theorem C9_empty_level_takes_middle env u w :
  let req := {| pdfFile := Some u; body_compressionLevel := Some [] |} in
  let w' := V2.post_compress_pdf env req w in
  let cmd :=
    gsCommand (Found middle)
      (V2.outputPath (now_handler env) (originalname u))
      (V2.file_path (now_upload env) (originalname u)) in
  compressionLevel req = js "middle"
  /\ profile_lookup (compressionLevel req) = Found middle
  /\ level middle = js "/ebook"
  /\ exec_commands (trace w') = exec_commands (trace w) ++ [cmd]
  /\ json_responses (trace w')
     = json_responses (trace w) ++
       match exec_error cmd (child env) with
       | Some message =>
           [(500, js "Error compressing PDF. Ghostscript stderr: "
                  ++ or_else (child_stderr (child env)) message)]
       | None => []
       end.
Proof.
  intros req w' cmd. subst w'.
  assert (profile_lookup (compressionLevel req) = Found middle) as Hl
    by reflexivity.
  do 3 (split; [reflexivity|]). split.
  - by rewrite (V2_exec_commands_request env req u w eq_refl eq_refl), Hl.
  - by rewrite (V2_json_responses_request env req u w eq_refl eq_refl), Hl.
Qed.

(** C10. The server does not look at the file: whatever its name, its
    declared type and its bytes, a request with a file and a level that
    the table answers calls [exec] once, on the staged upload, and the
    server answers with an error of its own exactly when the tool does
    not exit with zero. *)
Theorem C10_no_file_type_validation env req u w :
  pdfFile req = Some u ->
  truthy (profile_lookup (compressionLevel req)) = true ->
  let w' := V2.post_compress_pdf env req w in
  let cmd :=
    gsCommand (profile_lookup (compressionLevel req))
      (V2.outputPath (now_handler env) (originalname u))
      (V2.file_path (now_upload env) (originalname u)) in
  exec_commands (trace w') = exec_commands (trace w) ++ [cmd]
  /\ (exited_zero (child_status (child env)) = true ->
      json_responses (trace w') = json_responses (trace w))
  /\ (exited_zero (child_status (child env)) = false ->
      exists message,
        json_responses (trace w')
        = json_responses (trace w) ++ [(500, message)]).
Proof.
  intros Hu Ht w' cmd. subst w'.
  split; [exact (V2_exec_commands_request env req u w Hu Ht)|].
  rewrite (V2_json_responses_request env req u w Hu Ht). fold cmd.
  destruct (exec_error cmd (child env)) as [message|] eqn:E.
  - split; [|by eexists].
    intros Z. by rewrite (proj2 (exec_error_exited_zero _ _) Z) in E.
  - split; [by rewrite app_nil_r|].
    by rewrite (proj1 (exec_error_exited_zero _ _) E).
Qed.

Lemma C10_no_file_type_validation_witness :
  let env := sample_env tool_fails false in
  let req := sample_request sample_not_a_pdf (Some (js "little")) in
  let w' := V2.post_compress_pdf env req empty_world in
  exec_commands (trace w')
  = [gsCommand (Found little)
       (V2.outputPath 1700000000001 (js "holiday.jpg"))
       (V2.file_path 1700000000000 (js "holiday.jpg"))].
Proof.
  exact (proj1 (C10_no_file_type_validation (sample_env tool_fails false)
                  (sample_request sample_not_a_pdf (Some (js "little")))
                  sample_not_a_pdf empty_world eq_refl eq_refl)).
Defined.

(** ** The command line, as the handler builds it *)

(** C7. For every request with a file and one of the three levels, the
    command line handed to [exec] is read by the shell as the fixed list
    of words: the [pdfwrite] device, compatibility level 1.4, the
    directive of the profile, the three batch flags, the detection of
    duplicate images, the resolution of the profile for colour, gray and
    monochrome images alike, the output path and the input path.  The two
    paths stand between double quotes and hold only letters, digits,
    [.], [_], [-] and [/]: no white space and nothing the shell gives a
    meaning to. *)
Theorem C7_command_is_fixed_word_list env req u w p :
  pdfFile req = Some u ->
  profile_lookup (compressionLevel req) = Found p ->
  let inputPath := V2.file_path (now_upload env) (originalname u) in
  let outputPath := V2.outputPath (now_handler env) (originalname u) in
  let cmd := gsCommand (Found p) outputPath inputPath in
  exec_commands (trace (V2.post_compress_pdf env req w))
  = exec_commands (trace w) ++ [cmd]
  /\ sh_words cmd
     = Some (gs_words (level p) (imageResolution p) outputPath inputPath)
  /\ Forall (fun c => path_safe c = true) inputPath
  /\ Forall (fun c => path_safe c = true) outputPath
  /\ (forall c, path_safe c = true ->
        sh_blank c = false /\ (c =? c_dquote) = false
        /\ sh_meta c = false /\ sh_meta_quoted c = false).
Proof.
  intros Hu Hl inputPath outputPath cmd.
  split.
  { rewrite (V2_exec_commands_request env req u w Hu); [by rewrite Hl|].
    by rewrite Hl. }
  split.
  { subst cmd. rewrite <- Hl.
    rewrite sh_words_gsCommand
      by (apply V2_outputPath_safe || apply V2_file_path_safe).
    by rewrite Hl. }
  split; [apply V2_file_path_safe|].
  split; [apply V2_outputPath_safe|].
  apply path_safe_not_special.
Qed.

Lemma C7_command_is_fixed_word_list_witness :
  sh_words
    (gsCommand (Found high)
       (js "compressed_pdfs/compressed-1700000000001-my_report_final.pdf")
       (js "uploads/1700000000000-my_report__final_.PDF"))
  = Some
      [ js "gs"; js "-sDEVICE=pdfwrite"; js "-dCompatibilityLevel=1.4";
        js "-dPDFSETTINGS=/printer"; js "-dNOPAUSE"; js "-dQUIET";
        js "-dBATCH"; js "-dDetectDuplicateImages=true";
        js "-dColorImageResolution=300"; js "-dGrayImageResolution=300";
        js "-dMonoImageResolution=300";
        js "-sOutputFile=compressed_pdfs/compressed-1700000000001-my_report_final.pdf";
        js "uploads/1700000000000-my_report__final_.PDF" ].
Proof.
  exact (proj1 (proj2 (C7_command_is_fixed_word_list
                         (sample_env tool_ok false)
                         (sample_request sample_upload (Some (js "high")))
                         sample_upload empty_world high eq_refl eq_refl))).
Defined.

(** In the first revision the upload keeps every code unit of the client's
    name but white space, and the shell no longer reads the line as a
    list of words. *)
Example V1_command_with_substitution :
  sh_words
    (gsCommand (Found middle)
       (V1.outputPath 1700000000001 (js "$(id).pdf"))
       (V1.file_path 1700000000000 (js "$(id).pdf")))
  = None.
Proof. reflexivity. Qed.

(** ** The names of the output files *)

Lemma digits_of_uint_inj d1 d2 :
  digits_of_uint d1 = digits_of_uint d2 -> d1 = d2.
Proof.
  revert d2. induction d1; intros d2 H; destruct d2; simpl in H;
    try discriminate; try reflexivity; f_equal; apply IHd1; by inversion H.
Qed.

Lemma Number_toString_inj n1 n2 :
  Number_toString n1 = Number_toString n2 -> n1 = n2.
Proof.
  intros H. by apply DecimalN.Unsigned.to_uint_inj, digits_of_uint_inj.
Qed.

(** Two strings cut at their first hyphen are equal part by part. *)
Lemma split_at_hyphen (l1 l2 r1 r2 : jstring) :
  Forall (fun c => c <> c_hyphen) l1 ->
  Forall (fun c => c <> c_hyphen) l2 ->
  l1 ++ c_hyphen :: r1 = l2 ++ c_hyphen :: r2 ->
  l1 = l2 /\ r1 = r2.
Proof.
  intros H1. revert l2. induction H1 as [|c l1 Hc _ IH]; intros l2 H2 H.
  - destruct H2 as [|d l2 Hd _]; simpl in H.
    + split; [done|]. by inversion H.
    + inversion H. congruence.
  - destruct H2 as [|d l2 Hd H2]; simpl in H.
    + inversion H. congruence.
    + inversion H. subst. destruct (IH l2 H2) as [-> ->]; done.
Qed.

Lemma Number_toString_no_hyphen n :
  Forall (fun c => c <> c_hyphen) (Number_toString n).
Proof.
  eapply Forall_impl; [apply Number_toString_digits|].
  intros c H ->. discriminate H.
Qed.

(** The output path is the timestamp and the sanitized base, and nothing
    else of the request. *)
Lemma V2_outputPath_inj t1 t2 name1 name2 :
  V2.outputPath t1 name1 = V2.outputPath t2 name2 <->
  t1 = t2 /\ V2.finalBaseName name1 = V2.finalBaseName name2.
Proof.
  split.
  - change (V2.outputPath t1 name1)
      with (js "compressed_pdfs/compressed-" ++ Number_toString t1
            ++ c_hyphen :: V2.finalBaseName name1 ++ js ".pdf").
    change (V2.outputPath t2 name2)
      with (js "compressed_pdfs/compressed-" ++ Number_toString t2
            ++ c_hyphen :: V2.finalBaseName name2 ++ js ".pdf").
    intros H. apply app_inv_head in H.
    apply split_at_hyphen in H as [Ht Hb];
      [|apply Number_toString_no_hyphen..].
    split; [by apply Number_toString_inj|].
    by apply app_inv_tail in Hb.
  - intros [-> Hb]. unfold V2.outputPath, V2.outputFileName. by rewrite Hb.
Qed.

(** C8, as the spec words it, fails: two requests that differ (one file is
    named [a b.pdf], the other [a_b.pdf]) and reach line 589 in the same
    millisecond are given the same output path. *)
Lemma C8_same_millisecond_same_path :
  let u1 := {| originalname := js "a b.pdf"; mimetype := js "application/pdf";
               content := [1] |} in
  let u2 := {| originalname := js "a_b.pdf"; mimetype := js "application/pdf";
               content := [2] |} in
  let env1 := sample_env tool_ok false in
  let env2 := {| now_upload := 1700000000000; now_handler := 1700000000001;
                 child := tool_ok; client_aborts := true |} in
  ~ ((sample_request u1 (Some (js "high")), env1)
     <> (sample_request u2 (Some (js "little")), env2) ->
     V2.outputPath (now_handler env1) (originalname u1)
     <> V2.outputPath (now_handler env2) (originalname u2)).
Proof.
  intros u1 u2 env1 env2 H. apply H; [discriminate|reflexivity].
Qed.

(** The path of the staged upload is the timestamp of line 531 and the
    name of line 530, and nothing else of the request. *)
Lemma V2_file_path_inj s1 s2 name1 name2 :
  V2.file_path s1 name1 = V2.file_path s2 name2 <->
  s1 = s2 /\ replace_outside is_word_dot_hyphen name1
             = replace_outside is_word_dot_hyphen name2.
Proof.
  split.
  - change (V2.file_path s1 name1)
      with (js "uploads/" ++ Number_toString s1
            ++ c_hyphen :: replace_outside is_word_dot_hyphen name1).
    change (V2.file_path s2 name2)
      with (js "uploads/" ++ Number_toString s2
            ++ c_hyphen :: replace_outside is_word_dot_hyphen name2).
    intros H. apply app_inv_head in H.
    apply split_at_hyphen in H as [Ht Hb];
      [|apply Number_toString_no_hyphen..].
    split; [by apply Number_toString_inj|done].
  - intros [-> Hb]. unfold V2.file_path, V2.storage_filename. by rewrite Hb.
Qed.

(** What a request with a file and a level that the table answers does
    to a file that is there when it starts: the file stays exactly when
    its path is neither of the two paths of the request. *)
Lemma V2_request_keeps_iff env req u w q :
  pdfFile req = Some u ->
  truthy (profile_lookup (compressionLevel req)) = true ->
  q ∈ files w ->
  q ∈ files (V2.post_compress_pdf env req w)
  <-> q <> V2.file_path (now_upload env) (originalname u)
      /\ q <> V2.outputPath (now_handler env) (originalname u).
Proof.
  intros Hu Ht Hq. rewrite (V2_files_request env req u w Hu Ht).
  set_solver.
Qed.

(** C8, amended.  Two requests, the first with the staged upload [in1]
    and the output [out1], the second with [in2] and [out2].  The output
    paths differ exactly when the timestamps (the readings of the clock at
    line 589) differ or the sanitized base names differ: the path depends
    on nothing else of the request, so two requests with the same
    timestamp and the same sanitized base share it.  The paths of the
    staged uploads differ exactly when the timestamps of line 531 differ
    or the names of line 530 differ.  The second request, run to its end
    while the files of the first are in flight, leaves the output of the
    first in place exactly when the output paths differ, and the staged
    upload of the first exactly when the paths of the uploads differ:
    where a path is shared, the cleanup of the one request deletes the
    file of the other. *)
Theorem C8_output_paths_differ s1 t1 name1 s2 t2 name2 :
  let in1 := V2.file_path s1 name1 in
  let out1 := V2.outputPath t1 name1 in
  let in2 := V2.file_path s2 name2 in
  let out2 := V2.outputPath t2 name2 in
  (out1 <> out2 <->
   t1 <> t2 \/ V2.finalBaseName name1 <> V2.finalBaseName name2)
  /\ (in1 <> in2 <->
      s1 <> s2 \/ replace_outside is_word_dot_hyphen name1
                  <> replace_outside is_word_dot_hyphen name2)
  /\ (forall env req u w,
        pdfFile req = Some u ->
        truthy (profile_lookup (compressionLevel req)) = true ->
        now_upload env = s2 -> now_handler env = t2 ->
        originalname u = name2 ->
        let w' := V2.post_compress_pdf env req w in
        (out1 ∈ files w -> (out1 ∈ files w' <-> out1 <> out2))
        /\ (in1 ∈ files w -> (in1 ∈ files w' <-> in1 <> in2))).
Proof.
  intros in1 out1 in2 out2. subst in1 out1 in2 out2.
  split; [|split].
  - rewrite V2_outputPath_inj.
    destruct (decide (t1 = t2)) as [Et|Et];
      destruct (decide (V2.finalBaseName name1 = V2.finalBaseName name2))
        as [Eb|Eb]; tauto.
  - rewrite V2_file_path_inj.
    destruct (decide (s1 = s2)) as [Et|Et];
      destruct (decide (replace_outside is_word_dot_hyphen name1
                        = replace_outside is_word_dot_hyphen name2))
        as [Eb|Eb]; tauto.
  - intros env req u w Hu Ht <- <- <- w'. subst w'. split; intros Hin.
    + rewrite (V2_request_keeps_iff env req u w _ Hu Ht Hin).
      pose proof (V2_paths_differ (now_upload env) t1 (originalname u) name1).
      split; [tauto|]. intros Hne. split; [congruence|done].
    + rewrite (V2_request_keeps_iff env req u w _ Hu Ht Hin).
      pose proof (V2_paths_differ s1 (now_handler env) name1 (originalname u)).
      tauto.
Qed.

Lemma C8_output_paths_differ_witness :
  V2.outputPath 1700000000001 (js "a b.pdf")
  <> V2.outputPath 1700000000002 (js "a_b.pdf").
Proof.
  apply (proj1 (C8_output_paths_differ
                  1700000000000 1700000000001 (js "a b.pdf")
                  1700000000000 1700000000002 (js "a_b.pdf"))).
  left. discriminate.
Defined.

(** What sharing the path of the upload does.  Two requests for the same
    name are stored in the same millisecond and reach line 589 one
    millisecond apart: their output paths differ, and the second request,
    run to its end, has deleted the staged upload of the first. *)
Example same_upload_path_interference :
  let env2 := {| now_upload := 1700000000000; now_handler := 1700000000002;
                 child := tool_ok; client_aborts := false |} in
  let in1 := V2.file_path 1700000000000 (js "a.pdf") in
  let out1 := V2.outputPath 1700000000001 (js "a.pdf") in
  let w := (create_file in1 >>> create_file out1) empty_world in
  let w' :=
    V2.post_compress_pdf env2
      {| pdfFile := Some {| originalname := js "a.pdf";
                            mimetype := js "application/pdf";
                            content := [2] |};
         body_compressionLevel := Some (js "high") |} w in
  out1 <> V2.outputPath 1700000000002 (js "a.pdf")
  /\ (in1 ∈ files w) /\ (in1 ∉ files w') /\ (out1 ∈ files w').
Proof.
  intros env2 in1 out1 w w'. subst w'.
  rewrite V2_files_request with (u := {| originalname := js "a.pdf";
                                         mimetype := js "application/pdf";
                                         content := [2] |}) by done.
  change (V2.file_path (now_upload env2) _) with in1.
  change (V2.outputPath (now_handler env2) _)
    with (V2.outputPath 1700000000002 (js "a.pdf")).
  assert (out1 <> V2.outputPath 1700000000002 (js "a.pdf")) as Hne.
  { intros E. apply V2_outputPath_inj in E as [E _]. discriminate E. }
  assert (out1 <> in1) as Hio.
  { intros E. exact (V2_paths_differ _ _ _ _ (eq_sym E)). }
  split; [exact Hne|].
  assert (files w = {[out1]} ∪ ({[in1]} ∪ ∅)) as -> by reflexivity.
  revert Hne Hio. generalize (V2.outputPath 1700000000002 (js "a.pdf")).
  clear. generalize in1, out1. clear. intros a b c Hne Hio.
  repeat split.
  - apply elem_of_union. right. apply elem_of_union. left.
    by apply elem_of_singleton.
  - rewrite !elem_of_difference, elem_of_singleton. tauto.
  - rewrite !elem_of_difference, !elem_of_singleton.
    repeat split; [|done..].
    apply elem_of_union. left. by apply elem_of_singleton.
Qed.

(** What sharing the path does.  Two requests for [a b.pdf] and [a_b.pdf]
    reach line 589 in the same millisecond; both tools have left their
    output at the one path when the callbacks of [exec] run, first for
    the one request, with its download and its deletion, then for the
    other: the second download finds no file. *)
Example same_path_interference :
  let env := sample_env tool_ok false in
  let in1 := V2.file_path 1700000000000 (js "a b.pdf") in
  let in2 := V2.file_path 1699999999999 (js "a_b.pdf") in
  let out := V2.outputPath 1700000000001 (js "a b.pdf") in
  let name := V2.outputFileName 1700000000001 (js "a b.pdf") in
  let w :=
    (create_file in1 >>> create_file in2 >>> create_file out >>>
     V2.exec_callback env in1 out name None >>>
     V2.exec_callback env in2 out name None) empty_world in
  out = V2.outputPath 1700000000001 (js "a_b.pdf")
  /\ downloads (trace w) = [(out, name, Delivered); (out, name, Missing)].
Proof. split; by vm_compute. Qed.

(** * Further properties *)

(** ** The sanitizer of the second revision (lines 581-585) *)

Lemma strip_leading_split p s :
  exists k, s = k ++ strip_leading p s /\ forallb p k = true.
Proof.
  induction s as [|c s [k [Hk Hp]]]; [by exists []|].
  simpl. destruct (p c) eqn:E.
  - exists (c :: k). simpl. rewrite E, Hp. split; [by f_equal|done].
  - by exists [].
Qed.

Lemma strip_trailing_split p s :
  exists k, s = strip_trailing p s ++ k /\ forallb p k = true.
Proof.
  unfold strip_trailing.
  destruct (strip_leading_split p (rev s)) as [k [Hk Hp]].
  exists (rev k). split.
  - rewrite <- rev_app_distr, <- Hk. by rewrite rev_involutive.
  - rewrite forallb_forall in *. intros c Hc. apply Hp.
    by apply in_rev.
Qed.

Lemma strip_leading_head p s c t :
  strip_leading p s = c :: t -> p c = false.
Proof.
  induction s as [|d s IH]; [done|]. simpl.
  destruct (p d) eqn:E; [exact IH|]. intros H. by inversion H; subst.
Qed.

Lemma strip_leading_id p s :
  match s with c :: _ => p c = false | [] => True end ->
  strip_leading p s = s.
Proof. destruct s as [|c s]; [done|]. simpl. by intros ->. Qed.

Lemma starts_with_underscore s :
  starts_with [c_underscore] s = true
  <-> exists t, s = c_underscore :: t.
Proof.
  destruct s as [|c s].
  - split; [done|]. by intros [t H].
  - change (starts_with [c_underscore] (c :: s))
      with ((c_underscore =? c) && true).
    rewrite andb_true_r, N.eqb_eq. split.
    + intros <-. by exists s.
    + intros [t H]. by inversion H.
Qed.

Lemma no_adjacent_underscores_app_l a b :
  no_adjacent_underscores (a ++ b) = true -> no_adjacent_underscores a = true.
Proof.
  induction a as [|c a IH]; [done|]. simpl.
  destruct a as [|d a]; [by destruct b|].
  simpl app. rewrite !andb_true_iff. intros [H1 H2]. split; [done|].
  by apply IH.
Qed.

Lemma no_adjacent_underscores_app_r a b :
  no_adjacent_underscores (a ++ b) = true -> no_adjacent_underscores b = true.
Proof.
  induction a as [|c a IH]; [done|]. simpl.
  destruct (a ++ b) as [|d l] eqn:E.
  - destruct a; [|done]. simpl in E. by subst.
  - rewrite andb_true_iff. intros [_ H]. by apply IH.
Qed.

Lemma collapse_underscores_head s :
  hd_error (collapse_underscores s) = hd_error s.
Proof.
  induction s as [|c s IH]; [done|]. simpl.
  destruct s as [|d s]; [done|].
  destruct ((c =? c_underscore) && (d =? c_underscore)) eqn:E; [|done].
  rewrite IH. simpl. apply andb_prop in E as [Hc Hd].
  apply N.eqb_eq in Hc, Hd. congruence.
Qed.

Lemma collapse_underscores_no_adjacent s :
  no_adjacent_underscores (collapse_underscores s) = true.
Proof.
  induction s as [|c s IH]; [done|]. simpl.
  destruct s as [|d s]; [done|].
  destruct ((c =? c_underscore) && (d =? c_underscore)) eqn:E; [exact IH|].
  pose proof (collapse_underscores_head (d :: s)) as Hh.
  destruct (collapse_underscores (d :: s)) as [|d' l]; [done|].
  simpl in Hh. inversion Hh; subst d'.
  simpl in *. by rewrite E, IH.
Qed.

Lemma collapse_underscores_id s :
  no_adjacent_underscores s = true -> collapse_underscores s = s.
Proof.
  induction s as [|c s IH]; [done|]. simpl.
  destruct s as [|d s]; [done|].
  rewrite andb_true_iff, negb_true_iff. intros [-> H]. by rewrite IH.
Qed.

Lemma replace_outside_id keep s :
  forallb keep s = true -> replace_outside keep s = s.
Proof.
  induction s as [|c s IH]; [done|]. simpl.
  rewrite andb_true_iff. intros [-> H]. by rewrite IH.
Qed.

Lemma strip_underscores_ends s :
  negb (starts_with [c_underscore] (strip_underscores s)) = true
  /\ negb (ends_with [c_underscore] (strip_underscores s)) = true.
Proof.
  unfold strip_underscores.
  set (p := fun c => c =? c_underscore).
  set (s3 := strip_leading p s). split.
  - apply negb_true_iff, not_true_iff_false. intros H.
    apply starts_with_underscore in H as [t Ht].
    destruct (strip_trailing_split p s3) as [k [Hk _]].
    rewrite Ht in Hk. simpl in Hk.
    by pose proof (strip_leading_head p s _ _ Hk).
  - apply negb_true_iff, not_true_iff_false. intros H.
    unfold ends_with in H. simpl rev in H.
    apply starts_with_underscore in H as [t Ht].
    unfold strip_trailing in Ht. rewrite rev_involutive in Ht.
    by pose proof (strip_leading_head p _ _ _ Ht).
Qed.

Lemma strip_underscores_no_adjacent s :
  no_adjacent_underscores s = true ->
  no_adjacent_underscores (strip_underscores s) = true.
Proof.
  intros H. unfold strip_underscores.
  set (p := fun c => c =? c_underscore).
  destruct (strip_leading_split p s) as [k [Hk _]].
  destruct (strip_trailing_split p (strip_leading p s)) as [k' [Hk' _]].
  rewrite Hk in H. apply no_adjacent_underscores_app_r in H.
  rewrite Hk' in H. by apply no_adjacent_underscores_app_l in H.
Qed.

(** What lines 581-583 return is clean, whatever went in. *)
Lemma sanitizedBaseName_clean baseName :
  clean_base (V2.sanitizedBaseName baseName) = true.
Proof.
  unfold clean_base.
  rewrite (forallb_Forall_true _ _ (sanitizedBaseName_class baseName)).
  unfold V2.sanitizedBaseName.
  rewrite strip_underscores_no_adjacent
    by apply collapse_underscores_no_adjacent.
  by destruct (strip_underscores_ends
                 (collapse_underscores
                    (replace_outside is_word_hyphen baseName))) as [-> ->].
Qed.

(** On a clean base name lines 581-583 change nothing. *)
Lemma sanitizedBaseName_of_clean s :
  clean_base s = true -> V2.sanitizedBaseName s = s.
Proof.
  unfold clean_base. rewrite !andb_true_iff, !negb_true_iff.
  intros [[[Hc Ha] Hs] He]. unfold V2.sanitizedBaseName.
  rewrite (replace_outside_id _ _ Hc), (collapse_underscores_id _ Ha).
  unfold strip_underscores.
  rewrite (strip_leading_id _ s).
  - unfold strip_trailing. rewrite strip_leading_id; [apply rev_involutive|].
    unfold ends_with in He. simpl rev in He.
    destruct (rev s) as [|c t]; [done|].
    change (starts_with [c_underscore] (c :: t))
      with ((c_underscore =? c) && true) in He.
    rewrite andb_true_r in He. by rewrite N.eqb_sym.
  - destruct s as [|c t]; [done|].
    change (starts_with [c_underscore] (c :: t))
      with ((c_underscore =? c) && true) in Hs.
    rewrite andb_true_r in Hs. by rewrite N.eqb_sym.
Qed.

(** X1. For every file name the client may send, the base name put into
    the output file name is not empty, holds only [[A-Za-z0-9_-]], has no
    underscore at either end and no two underscores side by side. *)
Theorem X1_finalBaseName_shape originalname :
  matches_word_hyphen_plus (V2.finalBaseName originalname) = true
  /\ clean_base (V2.finalBaseName originalname) = true.
Proof.
  split; [apply V2_finalBaseName_matches|].
  unfold V2.finalBaseName.
  pose proof (sanitizedBaseName_clean (V2.baseName originalname)) as H.
  by destruct (V2.sanitizedBaseName (V2.baseName originalname)).
Qed.

(** X2. A base name that is already clean (only [[A-Za-z0-9_-]], no
    underscore at either end, no two underscores side by side) passes
    through lines 581-583 unchanged. *)
Theorem X2_clean_base_unchanged s :
  clean_base s = true -> V2.sanitizedBaseName s = s.
Proof. apply sanitizedBaseName_of_clean. Qed.

Lemma X2_clean_base_unchanged_witness :
  V2.sanitizedBaseName (js "annual_report-2024") = js "annual_report-2024".
Proof. apply X2_clean_base_unchanged. reflexivity. Defined.

(** X3. Sanitizing twice is sanitizing once. *)
Theorem X3_sanitizedBaseName_idempotent baseName :
  V2.sanitizedBaseName (V2.sanitizedBaseName baseName)
  = V2.sanitizedBaseName baseName.
Proof. apply sanitizedBaseName_of_clean, sanitizedBaseName_clean. Qed.

(** ** Where the two files of a request are put (lines 523-534, 587-594) *)

Lemma starts_with_app p r : starts_with p (p ++ r) = true.
Proof. induction p as [|c p IH]; [done|]. simpl. by rewrite N.eqb_refl. Qed.

Lemma ends_with_app p a : ends_with p (a ++ p) = true.
Proof. unfold ends_with. rewrite rev_app_distr. apply starts_with_app. Qed.

Lemma Forall_class_not_elem (f : N -> bool) x l :
  Forall (fun c => f c = true) l -> f x = false -> x ∉ l.
Proof.
  intros H Hx Hin. rewrite Forall_forall in H.
  specialize (H x Hin). congruence.
Qed.

Lemma Number_toString_leading_digit n :
  exists d rest, Number_toString n = d :: rest /\ is_digit d = true.
Proof.
  pose proof (Number_toString_digits n) as H.
  unfold Number_toString in *.
  assert (N.to_uint n <> Decimal.Nil) as Hn.
  { destruct n; [discriminate|]. apply DecimalPos.Unsigned.to_uint_nonnil. }
  destruct (N.to_uint n); [done|..]; simpl in *;
    eexists _, _; (split; [reflexivity|]); by inversion H.
Qed.

Lemma V2_storage_filename_class now originalname :
  Forall (fun c => is_word_dot_hyphen c = true)
    (V2.storage_filename now originalname).
Proof.
  unfold V2.storage_filename. repeat apply Forall_app_2.
  - eapply Forall_impl; [apply Number_toString_digits|].
    intros c H. unfold is_word_dot_hyphen, is_alnum.
    by rewrite H, !orb_true_r.
  - by apply Forall_of_forallb.
  - by apply replace_outside_Forall.
Qed.

Lemma V2_outputFileName_class now originalname :
  Forall (fun c => is_word_dot_hyphen c = true)
    (V2.outputFileName now originalname).
Proof.
  unfold V2.outputFileName. repeat apply Forall_app_2.
  - by apply Forall_of_forallb.
  - eapply Forall_impl; [apply Number_toString_digits|].
    intros c H. unfold is_word_dot_hyphen, is_alnum.
    by rewrite H, !orb_true_r.
  - by apply Forall_of_forallb.
  - eapply Forall_impl; [apply finalBaseName_class|].
    intros c. unfold is_word_dot_hyphen, is_word_hyphen.
    rewrite !orb_true_iff. tauto.
  - by apply Forall_of_forallb.
Qed.

(** X4. The staged upload is put directly into [uploads]: its path is
    [uploads/] followed by one name that holds no slash, starts with a
    digit of the timestamp (so it is neither empty, nor [.], nor [..]),
    holds only [[A-Za-z0-9._-]], and is as long as the timestamp, the
    hyphen and the client's name together.  Whatever name the client
    sends, the upload is not written anywhere else. *)
Theorem X4_upload_stays_in_uploads now originalname :
  let name := V2.storage_filename now originalname in
  V2.file_path now originalname = js "uploads/" ++ name
  /\ (c_slash ∉ name)
  /\ (exists d rest, name = d :: rest /\ is_digit d = true)
  /\ forallb is_word_dot_hyphen name = true
  /\ length name
     = (length (Number_toString now) + 1 + length originalname)%nat.
Proof.
  intros name. split; [reflexivity|]. split.
  { by eapply Forall_class_not_elem; [apply V2_storage_filename_class|]. }
  split.
  { destruct (Number_toString_leading_digit now) as (d & rest & E & Hd).
    subst name. unfold V2.storage_filename. rewrite E. by eexists _, _. }
  split; [apply forallb_Forall_true, V2_storage_filename_class|].
  subst name. unfold V2.storage_filename, replace_outside.
  rewrite !length_app, length_map. simpl. lia.
Qed.

(** X5. The output file is put directly into [compressed_pdfs]: its path
    is [compressed_pdfs/] followed by the name offered to the client,
    and that name holds no slash, starts with [compressed-], ends with
    [.pdf] and holds only [[A-Za-z0-9._-]], whatever name the client
    sent. *)
Theorem X5_output_stays_in_compressed_pdfs now originalname :
  let name := V2.outputFileName now originalname in
  V2.outputPath now originalname = js "compressed_pdfs/" ++ name
  /\ (c_slash ∉ name)
  /\ starts_with (js "compressed-") name = true
  /\ ends_with (js ".pdf") name = true
  /\ forallb is_word_dot_hyphen name = true.
Proof.
  intros name. split; [reflexivity|]. split.
  { by eapply Forall_class_not_elem; [apply V2_outputFileName_class|]. }
  split; [apply starts_with_app|]. split.
  { subst name. unfold V2.outputFileName.
    rewrite !app_assoc. apply ends_with_app. }
  apply forallb_Forall_true, V2_outputFileName_class.
Qed.

(** ** The command line of the first revision (lines 17-19, 48-64) *)

Lemma path_safe_quote_safe c : path_safe c = true -> quote_safe c = true.
Proof.
  intros H. apply path_safe_not_special in H as (_ & Hq & _ & Hm).
  unfold quote_safe. by rewrite Hq, Hm.
Qed.

Lemma sh_step_quoted c acc ws :
  quote_safe c = true ->
  sh_step {| mode := InDouble; cur := Some acc; words := ws |} c
  = Some {| mode := InDouble; cur := Some (c :: acc); words := ws |}.
Proof.
  unfold quote_safe. rewrite andb_true_iff, !negb_true_iff.
  intros [Hq Hm]. unfold sh_step. simpl. by rewrite Hq, Hm.
Qed.

(** Between double quotes, code units that are neither the quote nor
    [$], [`], [\] are read as they are. *)
Lemma sh_run_quoted s acc ws :
  Forall (fun c => quote_safe c = true) s ->
  sh_run s {| mode := InDouble; cur := Some acc; words := ws |}
  = Some {| mode := InDouble; cur := Some (rev s ++ acc); words := ws |}.
Proof.
  intros H. revert acc. induction H as [|c s Hc _ IH]; intros acc; [done|].
  simpl sh_run. rewrite (sh_step_quoted c acc ws Hc), IH.
  simpl rev. by rewrite <- app_assoc.
Qed.

Lemma sh_words_gsCommand_quoted key outputPath inputPath :
  Forall (fun c => quote_safe c = true) outputPath ->
  Forall (fun c => quote_safe c = true) inputPath ->
  sh_words (gsCommand (profile_lookup key) outputPath inputPath)
  = Some (gs_words (settings_level (profile_lookup key))
            (settings_imageResolution (profile_lookup key))
            outputPath inputPath).
Proof.
  intros Hout Hin. unfold sh_words.
  rewrite gsCommand_split, sh_run_app, sh_run_gs_head.
  set (head := take 11 _).
  rewrite sh_run_app, (sh_run_quoted _ _ _ Hout).
  change (sh_run ([c_dquote; c_space; c_dquote] ++ inputPath ++ [c_dquote])
            {| mode := InDouble;
               cur := Some (rev outputPath ++ rev (js "-sOutputFile="));
               words := rev head |})
    with (sh_run (inputPath ++ [c_dquote])
            {| mode := InDouble; cur := Some [];
               words := rev (rev outputPath ++ rev (js "-sOutputFile="))
                        :: rev head |}).
  rewrite sh_run_app, (sh_run_quoted _ _ _ Hin), sh_run_close_quote.
  unfold sh_finish. cbn [mode cur words sh_flush].
  rewrite rev_two_more, app_nil_r, rev_app_distr, !rev_involutive.
  reflexivity.
Qed.

Lemma output_file_of_gsCommand_quoted key outputPath inputPath :
  Forall (fun c => quote_safe c = true) outputPath ->
  Forall (fun c => quote_safe c = true) inputPath ->
  output_file_of (gsCommand (profile_lookup key) outputPath inputPath)
  = Some outputPath.
Proof.
  intros Hout Hin. unfold output_file_of.
  rewrite (sh_words_gsCommand_quoted key _ _ Hout Hin).
  destruct (profile_lookup_cases key) as [-> |[-> |[-> |[-> | ->]]]];
    reflexivity.
Qed.

Lemma replace_space_runs_Forall (P : N -> Prop) s :
  P c_underscore -> Forall P s -> Forall P (replace_space_runs s).
Proof.
  intros Hu. induction 1 as [|c s Hc Hs IH]; [constructor|].
  simpl. destruct (is_js_space c).
  - destruct s as [|d s]; [by constructor|].
    destruct (is_js_space d); [exact IH|by constructor].
  - by constructor.
Qed.

Lemma replace_space_runs_no_space s :
  Forall (fun c => is_js_space c = false) (replace_space_runs s).
Proof.
  induction s as [|c s IH]; [constructor|].
  simpl. destruct (is_js_space c) eqn:E.
  - destruct s as [|d s]; [by repeat constructor|].
    destruct (is_js_space d); [exact IH|by constructor].
  - by constructor.
Qed.

Lemma V1_file_path_quote_safe now originalname :
  Forall (fun c => quote_safe c = true) originalname ->
  Forall (fun c => quote_safe c = true) (V1.file_path now originalname).
Proof.
  intros H.
  change (V1.file_path now originalname)
    with (js "uploads/" ++ Number_toString now ++ js "-"
          ++ replace_space_runs originalname).
  repeat apply Forall_app_2.
  - by apply Forall_of_forallb.
  - eapply Forall_impl; [apply Number_toString_digits|].
    intros c Hc. by apply path_safe_quote_safe, is_digit_path_safe.
  - by apply Forall_of_forallb.
  - by apply replace_space_runs_Forall.
Qed.

Lemma strip_pdf_suffix_Forall (P : N -> Prop) s :
  Forall P s -> Forall P (strip_pdf_suffix s).
Proof.
  intros H. unfold strip_pdf_suffix.
  destruct (ends_with _ _); [by apply Forall_take|done].
Qed.

Lemma V1_originalNameSanitized_class originalname :
  Forall (fun c => is_alnum_dot c || (c =? c_underscore) = true)
    (V1.originalNameSanitized originalname).
Proof.
  unfold V1.originalNameSanitized.
  apply strip_pdf_suffix_Forall. unfold replace_outside.
  apply Forall_map, Forall_forall. intros c _. simpl.
  destruct (is_alnum_dot c) eqn:E; [by rewrite E|done].
Qed.

Lemma V1_outputPath_safe now originalname :
  Forall (fun c => path_safe c = true) (V1.outputPath now originalname).
Proof.
  change (V1.outputPath now originalname)
    with (js "compressed_pdfs/compressed-" ++ Number_toString now ++ js "-"
          ++ V1.originalNameSanitized originalname ++ js ".pdf").
  repeat apply Forall_app_2.
  - by apply Forall_of_forallb.
  - eapply Forall_impl; [apply Number_toString_digits|].
    apply is_digit_path_safe.
  - by apply Forall_of_forallb.
  - eapply Forall_impl; [apply V1_originalNameSanitized_class|].
    intros c. unfold path_safe, is_word_dot_hyphen, is_alnum_dot.
    rewrite !orb_true_iff. tauto.
  - by apply Forall_of_forallb.
Qed.






(** ** One request of the first revision (lines 29-96) *)

Lemma V1_files_download_callback p o w :
  files (V1.download_callback p o w) = files w ∖ {[p]}.
Proof.
  unfold V1.download_callback. rewrite seq_action_apply.
  rewrite files_fs_unlink by auto with files.
  by destruct o.
Qed.

Lemma V1_files_exec_callback env inputPath outputPath name error w :
  files (V1.exec_callback env inputPath outputPath name error w)
  = match error with
    | Some _ => files w ∖ {[inputPath]}
    | None => files w ∖ {[inputPath]} ∖ {[outputPath]}
    end.
Proof.
  unfold V1.exec_callback. rewrite seq_action_apply.
  set (w1 := fs_unlink inputPath _ w).
  assert (files w1 = files w ∖ {[inputPath]}) as Hf
    by (apply files_fs_unlink; auto with files).
  clearbody w1. destruct error as [message|].
  - by rewrite !seq_action_apply, keeps_files_res_json, !keeps_files_console.
  - rewrite !seq_action_apply. unfold res_download.
    rewrite V1_files_download_callback, files_emit, keeps_files_console.
    by rewrite (keeps_files_when _ _ (keeps_files_console _ _)), Hf.
Qed.

Lemma V1_files_upload_single env req u w :
  pdfFile req = Some u ->
  files (V1.upload_single env req w)
  = {[V1.file_path (now_upload env) (originalname u)]} ∪ files w.
Proof.
  intros Hu. unfold V1.upload_single. rewrite Hu.
  rewrite !seq_action_apply, files_create_file, files_emit.
  by rewrite files_ensure_dir.
Qed.

(** The files after a request of the first revision with a file and a
    level that the table answers, from the files the tool leaves. *)
Lemma V1_files_request env req u w :
  pdfFile req = Some u ->
  truthy (profile_lookup (compressionLevel req)) = true ->
  let inputPath := V1.file_path (now_upload env) (originalname u) in
  let outputPath := V1.outputPath (now_handler env) (originalname u) in
  let cmd :=
    gsCommand (profile_lookup (compressionLevel req)) outputPath inputPath in
  exists after_tool : world,
    after_tool
    = run_tool env cmd
        {| files := {[inputPath]} ∪ files w; dirs := ∅; trace := [] |}
    /\ files (V1.post_compress_pdf env req w)
       = match exec_error cmd (child env) with
         | Some _ => files after_tool ∖ {[inputPath]}
         | None => files after_tool ∖ {[inputPath]} ∖ {[outputPath]}
         end.
Proof.
  intros Hu Ht inputPath outputPath cmd. eexists. split; [reflexivity|].
  unfold V1.post_compress_pdf. rewrite seq_action_apply.
  pose proof (V1_files_upload_single env req u w Hu) as Hup.
  set (w0 := V1.upload_single env req w) in *. clearbody w0.
  unfold V1.handler. rewrite Hu, Ht. cbn [negb]. cbv beta iota zeta.
  fold inputPath outputPath cmd.
  rewrite !seq_action_apply. unfold exec. rewrite !seq_action_apply.
  rewrite V1_files_exec_callback.
  assert (forall w1 w2, files w1 = files w2 ->
            files (run_tool env cmd w1) = files (run_tool env cmd w2)) as Hrt.
  { intros w1 w2 E. unfold run_tool. destruct (output_file_of cmd); [|done].
    destruct (writes_output (child env)); [|done].
    by rewrite !files_create_file, E. }
  rewrite (Hrt _ {| files := {[inputPath]} ∪ files w; dirs := ∅; trace := [] |});
    [done|].
  by rewrite files_emit, keeps_files_console, files_ensure_dir, Hup.
Qed.

Section V1_request.

Context {A : Type} (f : event -> option A).
Hypothesis f_mkdir : forall d, f (EvMkdir d) = None.
Hypothesis f_store : forall p, f (EvStore p) = None.
Hypothesis f_unlink : forall p, f (EvUnlink p) = None.
Hypothesis f_console : forall s m, f (EvConsole s m) = None.

Lemma V1_obs_download_callback p o w :
  omap f (trace (V1.download_callback p o w))
  = omap f (trace w) ++
    match o with
    | Missing => seen f (EvJson 500 (js "Error sending the compressed file."))
    | _ => []
    end.
Proof.
  unfold V1.download_callback. rewrite seq_action_apply.
  rewrite (obs_fs_unlink f f_unlink) by apply (unseen_console f f_console).
  destruct o; unfold when, download_failed, headersSent; cbn [negb];
    cbv beta iota.
  - by rewrite app_nil_r.
  - unfold skip. rewrite seq_action_apply.
    rewrite (unseen_console f f_console). by rewrite app_nil_r.
  - rewrite seq_action_apply, obs_res_json.
    by rewrite (unseen_console f f_console).
Qed.

Lemma V1_obs_upload_single env req w :
  omap f (trace (V1.upload_single env req w)) = omap f (trace w).
Proof.
  unfold V1.upload_single. destruct (pdfFile req) as [u|]; [|done].
  rewrite !seq_action_apply, obs_create_file, obs_emit.
  rewrite (obs_ensure_dir f f_mkdir).
  unfold seen. rewrite f_store. simpl. by rewrite app_nil_r.
Qed.

(** What an observer sees of a request of the first revision with a file
    and a level that the table answers. *)
Lemma V1_obs_request env req u w :
  pdfFile req = Some u ->
  truthy (profile_lookup (compressionLevel req)) = true ->
  let inputPath := V1.file_path (now_upload env) (originalname u) in
  let outputPath := V1.outputPath (now_handler env) (originalname u) in
  let name := V1.outputFileName (now_handler env) (originalname u) in
  let cmd :=
    gsCommand (profile_lookup (compressionLevel req)) outputPath inputPath in
  let o :=
    download_outcome_of env outputPath
      (files (run_tool env cmd
                {| files := {[inputPath]} ∪ files w; dirs := ∅; trace := [] |})
       ∖ {[inputPath]}) in
  omap f (trace (V1.post_compress_pdf env req w))
  = omap f (trace w) ++ seen f (EvExec cmd) ++
    match exec_error cmd (child env) with
    | Some message =>
        seen f (EvJson 500
                  (js "Error compressing PDF: "
                   ++ or_else (child_stderr (child env)) message))
    | None =>
        seen f (EvDownload outputPath name o) ++
        match o with
        | Missing =>
            seen f (EvJson 500 (js "Error sending the compressed file."))
        | _ => []
        end
    end.
Proof.
  intros Hu Ht inputPath outputPath name cmd o.
  unfold V1.post_compress_pdf. rewrite seq_action_apply.
  pose proof (V1_files_upload_single env req u w Hu) as Hup.
  pose proof (V1_obs_upload_single env req w) as Hobs.
  set (w0 := V1.upload_single env req w) in *. clearbody w0.
  unfold V1.handler. rewrite Hu, Ht. cbn [negb]. cbv beta iota zeta.
  fold inputPath outputPath name cmd.
  rewrite !seq_action_apply. unfold exec. rewrite !seq_action_apply.
  set (w1 := run_tool env cmd _).
  assert (omap f (trace w1) = omap f (trace w) ++ seen f (EvExec cmd)) as Ht1.
  { subst w1. rewrite trace_run_tool, obs_emit.
    rewrite (unseen_console f f_console), (obs_ensure_dir f f_mkdir).
    by rewrite Hobs. }
  assert (files w1
          = files (run_tool env cmd
                     {| files := {[inputPath]} ∪ files w; dirs := ∅;
                        trace := [] |})) as Hf1.
  { subst w1. unfold run_tool. destruct (output_file_of cmd); [|].
    - destruct (writes_output (child env)); unfold skip;
        by rewrite ?files_create_file, files_emit, keeps_files_console,
          files_ensure_dir, Hup.
    - unfold skip.
      by rewrite files_emit, keeps_files_console, files_ensure_dir, Hup. }
  clearbody w1. unfold V1.exec_callback. rewrite seq_action_apply.
  set (w2 := fs_unlink inputPath _ w1).
  assert (omap f (trace w2) = omap f (trace w1)) as Ht2
    by (apply (obs_fs_unlink f f_unlink), (unseen_console f f_console)).
  assert (files w2 = files w1 ∖ {[inputPath]}) as Hf2
    by (apply files_fs_unlink; auto with files).
  clearbody w2.
  destruct (exec_error cmd (child env)) as [message|].
  - rewrite !seq_action_apply, obs_res_json.
    rewrite !(unseen_console f f_console), Ht2, Ht1.
    by rewrite <- app_assoc.
  - rewrite !seq_action_apply. unfold res_download.
    rewrite V1_obs_download_callback, obs_emit.
    rewrite (unseen_console f f_console).
    rewrite (unseen_when f _ _ (unseen_console f f_console _ _)).
    rewrite keeps_files_console,
      (keeps_files_when _ _ (keeps_files_console _ _)), Hf2, Hf1.
    fold o. by rewrite Ht2, Ht1, <- !app_assoc.
Qed.

Lemma V1_obs_request_invalid env req u w :
  pdfFile req = Some u ->
  truthy (profile_lookup (compressionLevel req)) = false ->
  omap f (trace (V1.post_compress_pdf env req w))
  = omap f (trace w) ++
    seen f (EvJson 400
      (js "Invalid compression level. Choose from: little, middle, high.")).
Proof.
  intros Hu Ht. unfold V1.post_compress_pdf. rewrite seq_action_apply.
  unfold V1.handler. rewrite Hu, Ht. cbn [negb]. cbv beta iota zeta.
  rewrite seq_action_apply, obs_res_json.
  rewrite (obs_fs_unlink f f_unlink) by apply (unseen_console f f_console).
  by rewrite V1_obs_upload_single.
Qed.

End V1_request.

(** ** The answers of the two revisions *)


Lemma V2_files_request_invalid env req u w :
  pdfFile req = Some u ->
  truthy (profile_lookup (compressionLevel req)) = false ->
  files (V2.post_compress_pdf env req w)
  = files w ∖ {[V2.file_path (now_upload env) (originalname u)]}.
Proof.
  intros Hu Ht. unfold V2.post_compress_pdf. rewrite seq_action_apply.
  unfold V2.handler. rewrite Hu, Ht. cbn [negb]. cbv beta iota zeta.
  rewrite seq_action_apply, keeps_files_res_json.
  rewrite files_fs_unlink by auto with files.
  rewrite (V2_files_upload_single env req u w Hu). set_solver.
Qed.

Lemma V1_files_request_invalid env req u w :
  pdfFile req = Some u ->
  truthy (profile_lookup (compressionLevel req)) = false ->
  files (V1.post_compress_pdf env req w)
  = files w ∖ {[V1.file_path (now_upload env) (originalname u)]}.
Proof.
  intros Hu Ht. unfold V1.post_compress_pdf. rewrite seq_action_apply.
  unfold V1.handler. rewrite Hu, Ht. cbn [negb]. cbv beta iota zeta.
  rewrite seq_action_apply, keeps_files_res_json.
  rewrite files_fs_unlink by auto with files.
  rewrite (V1_files_upload_single env req u w Hu). set_solver.
Qed.

(** X8. A request without a file field is answered with 400 and the
    message [No PDF file uploaded.], whatever its level field, by both
    revisions; nothing is stored, created, deleted or run. *)
Theorem X8_no_file_is_rejected env req w :
  pdfFile req = None ->
  V1.post_compress_pdf env req w
  = emit (EvJson 400 (js "No PDF file uploaded.")) w
  /\ V2.post_compress_pdf env req w
     = emit (EvJson 400 (js "No PDF file uploaded.")) w
  /\ files (V2.post_compress_pdf env req w) = files w
  /\ dirs (V2.post_compress_pdf env req w) = dirs w
  /\ exec_commands (trace (V2.post_compress_pdf env req w))
     = exec_commands (trace w).
Proof.
  intros Hn.
  assert (V2.post_compress_pdf env req w
          = emit (EvJson 400 (js "No PDF file uploaded.")) w) as E2.
  { unfold V2.post_compress_pdf, V2.upload_single, V2.handler.
    by rewrite Hn. }
  split; [|split; [exact E2|]].
  - unfold V1.post_compress_pdf, V1.upload_single, V1.handler.
    by rewrite Hn.
  - rewrite E2. repeat split. unfold exec_commands, emit. simpl.
    rewrite omap_app. apply app_nil_r.
Qed.

Lemma X8_no_file_is_rejected_witness :
  json_responses
    (trace (V2.post_compress_pdf (sample_env tool_ok false)
              {| pdfFile := None; body_compressionLevel := Some (js "high") |}
              empty_world))
  = [(400, js "No PDF file uploaded.")].
Proof.
  rewrite (proj1 (proj2 (X8_no_file_is_rejected (sample_env tool_ok false)
             {| pdfFile := None; body_compressionLevel := Some (js "high") |}
             empty_world eq_refl))).
  reflexivity.
Defined.

(** X9. Whatever the level and however the tool and the download end, a
    request with a file leaves no staged upload behind, in either
    revision: every path of the handler deletes it. *)
Theorem X9_upload_is_always_deleted env req u w :
  pdfFile req = Some u ->
  (V1.file_path (now_upload env) (originalname u)
     ∉ files (V1.post_compress_pdf env req w))
  /\ (V2.file_path (now_upload env) (originalname u)
        ∉ files (V2.post_compress_pdf env req w)).
Proof.
  intros Hu.
  destruct (truthy (profile_lookup (compressionLevel req))) eqn:Ht; split.
  - destruct (V1_files_request env req u w Hu Ht) as (after_tool & _ & ->).
    destruct (exec_error _ _); set_solver.
  - rewrite (V2_files_request env req u w Hu Ht). set_solver.
  - rewrite (V1_files_request_invalid env req u w Hu Ht). set_solver.
  - rewrite (V2_files_request_invalid env req u w Hu Ht). set_solver.
Qed.

Lemma X9_upload_is_always_deleted_witness :
  V2.file_path 1700000000000 (originalname sample_upload)
    ∉ files (V2.post_compress_pdf (sample_env tool_fails true)
               (sample_request sample_upload (Some (js "toString")))
               {| files := {[V2.file_path 1700000000000
                               (originalname sample_upload)]};
                  dirs := ∅; trace := [] |}).
Proof.
  exact (proj2 (X9_upload_is_always_deleted (sample_env tool_fails true)
                  (sample_request sample_upload (Some (js "toString")))
                  sample_upload _ eq_refl)).
Defined.

(** X10. The status codes of the second revision.  One request gets at
    most one answer: 400 without a file or with a level that the table
    does not answer, 500 when the tool does not exit with zero, 200 when
    it exits with zero and the output file is there, and no answer at
    all when it exits with zero and the output file is not there (the
    callback of [res.download] only logs the error). *)
Theorem X10_V2_status_codes env req w :
  statuses (trace (V2.post_compress_pdf env req w))
  = statuses (trace w) ++
    match pdfFile req with
    | None => [400]
    | Some u =>
        if truthy (profile_lookup (compressionLevel req)) then
          if exited_zero (child_status (child env)) then
            if bool_decide
                 (V2.outputPath (now_handler env) (originalname u)
                  ∈ files_at_download env
                      (V2.file_path (now_upload env) (originalname u))
                      (V2.outputPath (now_handler env) (originalname u))
                      (files w))
            then [200] else []
          else [500]
        else [400]
    end.
Proof.
  unfold statuses.
  destruct (pdfFile req) as [u|] eqn:Hu.
  - destruct (truthy (profile_lookup (compressionLevel req))) eqn:Ht.
    + rewrite (V2_obs_request status_of (fun _ => eq_refl) (fun _ => eq_refl)
                 (fun _ => eq_refl) (fun _ _ => eq_refl) env req u w Hu Ht).
      unfold seen. cbn [status_of option_list app]. f_equal.
      destruct (exec_error _ (child env)) as [message|] eqn:E.
      * destruct (exited_zero _) eqn:Z; [|done].
        by rewrite (proj2 (exec_error_exited_zero _ _) Z) in E.
      * rewrite (proj1 (exec_error_exited_zero _ _) E).
        unfold download_outcome_of. case_bool_decide; [|done].
        by destruct (client_aborts env).
    + by rewrite (V2_obs_request_invalid status_of (fun _ => eq_refl)
                    (fun _ => eq_refl) (fun _ => eq_refl)
                    (fun _ _ => eq_refl) env req u w Hu Ht).
  - unfold V2.post_compress_pdf, V2.upload_single, V2.handler.
    rewrite Hu. unfold seq_action, skip, res_json, emit. simpl.
    by rewrite omap_app.
Qed.

(** X11. The status codes of the first revision.  Every request gets
    exactly one answer: 400 without a file or with a level that the
    table does not answer, 500 when the tool does not exit with zero,
    and 200 or 500 when it exits with zero (500 when the download
    cannot start, lines 85-89). *)
Theorem X11_V1_status_codes env req w :
  exists new,
    statuses (trace (V1.post_compress_pdf env req w))
    = statuses (trace w) ++ new
    /\ length new = 1%nat
    /\ match pdfFile req with
       | None => new = [400]
       | Some u =>
           if truthy (profile_lookup (compressionLevel req)) then
             if exited_zero (child_status (child env))
             then new = [200] \/ new = [500]
             else new = [500]
           else new = [400]
       end.
Proof.
  unfold statuses.
  destruct (pdfFile req) as [u|] eqn:Hu.
  - destruct (truthy (profile_lookup (compressionLevel req))) eqn:Ht.
    + rewrite (V1_obs_request status_of (fun _ => eq_refl) (fun _ => eq_refl)
                 (fun _ => eq_refl) (fun _ _ => eq_refl) env req u w Hu Ht).
      unfold seen. cbn [status_of option_list app].
      destruct (exec_error _ (child env)) as [message|] eqn:E.
      * exists [500]. repeat split.
        destruct (exited_zero _) eqn:Z; [|done].
        by rewrite (proj2 (exec_error_exited_zero _ _) Z) in E.
      * rewrite (proj1 (exec_error_exited_zero _ _) E).
        destruct (download_outcome_of _ _ _); cbn [headersSent option_list app];
          eexists; (split; [reflexivity|]); split; auto.
    + rewrite (V1_obs_request_invalid status_of (fun _ => eq_refl)
                 (fun _ => eq_refl) (fun _ => eq_refl)
                 (fun _ _ => eq_refl) env req u w Hu Ht).
      by exists [400].
  - exists [400]. repeat split.
    unfold V1.post_compress_pdf, V1.upload_single, V1.handler.
    rewrite Hu. unfold seq_action, skip, res_json, emit. simpl.
    by rewrite omap_app.
Qed.

(** For a name without the quote, [$], [`] and [\], the tool of the first
    revision writes, if it writes, the output path of the handler. *)
Lemma V1_files_run_tool env key now_in now_out originalname w :
  Forall (fun c => quote_safe c = true) originalname ->
  files (run_tool env
           (gsCommand (profile_lookup key)
              (V1.outputPath now_out originalname)
              (V1.file_path now_in originalname)) w)
  = if writes_output (child env)
    then {[V1.outputPath now_out originalname]} ∪ files w
    else files w.
Proof.
  intros H. unfold run_tool.
  rewrite output_file_of_gsCommand_quoted.
  - by destruct (writes_output (child env)).
  - eapply Forall_impl; [apply V1_outputPath_safe|].
    apply path_safe_quote_safe.
  - by apply V1_file_path_quote_safe.
Qed.



(** X13. The success path of the first revision (lines 79-94), for a
    file name without the quote, [$], [`] and [\].  When the tool exits
    with zero, the staged upload and the output file are both deleted;
    the download is started, and when the output file is not there the
    client gets 500 with [Error sending the compressed file.] instead
    of the file. *)
Theorem X13_V1_zero_exit env req u w :
  pdfFile req = Some u ->
  truthy (profile_lookup (compressionLevel req)) = true ->
  Forall (fun c => quote_safe c = true) (originalname u) ->
  exited_zero (child_status (child env)) = true ->
  let inputPath := V1.file_path (now_upload env) (originalname u) in
  let outputPath := V1.outputPath (now_handler env) (originalname u) in
  let at_download := files_at_download env inputPath outputPath (files w) in
  let w' := V1.post_compress_pdf env req w in
  files w' = files w ∖ {[inputPath]} ∖ {[outputPath]}
  /\ downloads (trace w')
     = downloads (trace w) ++
       [(outputPath, V1.outputFileName (now_handler env) (originalname u),
         download_outcome_of env outputPath at_download)]
  /\ json_responses (trace w')
     = json_responses (trace w) ++
       (if bool_decide (outputPath ∈ at_download) then []
        else [(500, js "Error sending the compressed file.")]).
Proof.
  intros Hu Ht Hq Hz inputPath outputPath at_download w'. subst w'.
  assert (exec_error
            (gsCommand (profile_lookup (compressionLevel req))
               outputPath inputPath) (child env) = None) as E
    by by apply exec_error_exited_zero.
  assert (files (run_tool env
                   (gsCommand (profile_lookup (compressionLevel req))
                      outputPath inputPath)
                   {| files := {[inputPath]} ∪ files w; dirs := ∅;
                      trace := [] |}) ∖ {[inputPath]}
          = at_download) as Hd.
  { subst inputPath outputPath at_download.
    rewrite (V1_files_run_tool _ _ _ _ _ _ Hq). unfold files_at_download.
    by destruct (writes_output (child env)). }
  split.
  { clear Hd E. subst at_download.
    destruct (V1_files_request env req u w Hu Ht) as (after_tool & Ha & ->).
    fold inputPath outputPath.
    rewrite (proj2 (exec_error_exited_zero _ _) Hz), Ha.
    subst inputPath outputPath. rewrite (V1_files_run_tool _ _ _ _ _ _ Hq).
    clear. destruct (writes_output (child env)); set_solver. }
  split.
  - unfold downloads.
    rewrite (V1_obs_request _ (fun _ => eq_refl) (fun _ => eq_refl)
               (fun _ => eq_refl) (fun _ _ => eq_refl) env req u w Hu Ht).
    fold inputPath outputPath. rewrite E, Hd. unfold seen.
    by destruct (download_outcome_of env outputPath at_download).
  - unfold json_responses.
    rewrite (V1_obs_request _ (fun _ => eq_refl) (fun _ => eq_refl)
               (fun _ => eq_refl) (fun _ _ => eq_refl) env req u w Hu Ht).
    fold inputPath outputPath. rewrite E, Hd. unfold seen.
    unfold download_outcome_of. case_bool_decide; [|done].
    by destruct (client_aborts env).
Qed.

Lemma X13_V1_zero_exit_witness :
  json_responses
    (trace (V1.post_compress_pdf (sample_env tool_silent false)
              (sample_request sample_upload None) empty_world))
  = [(500, js "Error sending the compressed file.")].
Proof.
  refine (proj2 (proj2
            (X13_V1_zero_exit (sample_env tool_silent false)
               (sample_request sample_upload None) sample_upload empty_world
               eq_refl eq_refl _ eq_refl))).
  by apply Forall_of_forallb.
Defined.

(** X14. When the tool fails without printing a diagnostic (an exit
    status other than zero or a signal, and an empty stderr), the message
    of the 500 answer of the second revision falls back on the message of
    the error, which quotes the whole command line: the client is shown
    the paths of the staged upload and of the output file. *)
Theorem X14_V2_silent_failure_shows_command env req u w code :
  pdfFile req = Some u ->
  truthy (profile_lookup (compressionLevel req)) = true ->
  child_status (child env) = Signaled
  \/ (child_status (child env) = Exited code /\ code <> 0) ->
  child_stderr (child env) = [] ->
  let cmd :=
    gsCommand (profile_lookup (compressionLevel req))
      (V2.outputPath (now_handler env) (originalname u))
      (V2.file_path (now_upload env) (originalname u)) in
  json_responses (trace (V2.post_compress_pdf env req w))
  = json_responses (trace w) ++
    [(500, js "Error compressing PDF. Ghostscript stderr: "
           ++ js "Command failed: " ++ cmd ++ [10])].
Proof.
  intros Hu Ht Hs He cmd.
  rewrite (V2_json_responses_request env req u w Hu Ht). fold cmd.
  unfold exec_error. rewrite He.
  destruct Hs as [-> | [-> Hc]].
  - by rewrite app_nil_r.
  - destruct code; [done|]. by rewrite app_nil_r.
Qed.

Lemma X14_V2_silent_failure_shows_command_witness :
  json_responses
    (trace (V2.post_compress_pdf
              {| now_upload := 1700000000000; now_handler := 1700000000001;
                 child := {| child_status := Exited 1; child_stdout := [];
                             child_stderr := []; writes_output := false |};
                 client_aborts := false |}
              (sample_request sample_upload None) empty_world))
  = [(500, js "Error compressing PDF. Ghostscript stderr: "
           ++ js "Command failed: "
           ++ gsCommand (Found middle)
                (V2.outputPath 1700000000001 (originalname sample_upload))
                (V2.file_path 1700000000000 (originalname sample_upload))
           ++ [10])].
Proof.
  refine (X14_V2_silent_failure_shows_command
            {| now_upload := 1700000000000; now_handler := 1700000000001;
               child := {| child_status := Exited 1; child_stdout := [];
                           child_stderr := []; writes_output := false |};
               client_aborts := false |}
            (sample_request sample_upload None) sample_upload empty_world 1
            eq_refl eq_refl _ eq_refl).
  right. split; [reflexivity|discriminate].
Defined.

(** ** The name the page saves the answer under (lines 459-467, 836-842) *)

Lemma dot_run_no_terminator s :
  Forall (fun c => is_line_terminator c = false) (dot_run s).
Proof.
  induction s as [|c s IH]; [constructor|]. simpl.
  destruct (is_line_terminator c) eqn:E; by constructor.
Qed.

Lemma dot_run_id s :
  Forall (fun c => is_line_terminator c = false) s -> dot_run s = s.
Proof.
  induction 1 as [|c s Hc _ IH]; [done|]. simpl. by rewrite Hc, IH.
Qed.

Lemma dot_plus_Some s group :
  dot_plus s = Some group ->
  group <> [] /\ Forall (fun c => is_line_terminator c = false) group.
Proof.
  unfold dot_plus. pose proof (dot_run_no_terminator s) as H.
  destruct (dot_run s) as [|c r]; [done|].
  intros E. inversion E. by subst.
Qed.

Lemma match_after_key_Some rest group :
  match_after_key rest = Some group ->
  group <> [] /\ Forall (fun c => is_line_terminator c = false) group.
Proof.
  unfold match_after_key. destruct rest as [|c r]; [done|].
  destruct (c =? c_dquote).
  - destruct (dot_plus r) as [g|] eqn:E.
    + intros H. inversion H; subst. by apply dot_plus_Some in E.
    + apply dot_plus_Some.
  - apply dot_plus_Some.
Qed.

Lemma match_filename_Some s group :
  match_filename s = Some group ->
  group <> [] /\ Forall (fun c => is_line_terminator c = false) group.
Proof.
  induction s as [|c s IH]; [done|].
  change (match_filename (c :: s))
    with (if at_filename_key (c :: s)
          then match match_after_key (drop 9 (c :: s)) with
               | Some g => Some g
               | None => match_filename s
               end
          else match_filename s).
  destruct (at_filename_key (c :: s)); [|exact IH].
  destruct (match_after_key _) as [g|] eqn:E; [|exact IH].
  intros H. inversion H; subst. by apply match_after_key_Some in E.
Qed.

Lemma match_filename_skip c t :
  at_filename_key (c :: t) = false ->
  match_filename (c :: t) = match_filename t.
Proof.
  intros H.
  change (match_filename (c :: t))
    with (if at_filename_key (c :: t)
          then match match_after_key (drop 9 (c :: t)) with
               | Some g => Some g
               | None => match_filename t
               end
          else match_filename t).
  by rewrite H.
Qed.

Lemma match_filename_hit c t group :
  at_filename_key (c :: t) = true ->
  match_after_key (drop 9 (c :: t)) = Some group ->
  match_filename (c :: t) = Some group.
Proof.
  intros H E.
  change (match_filename (c :: t))
    with (if at_filename_key (c :: t)
          then match match_after_key (drop 9 (c :: t)) with
               | Some g => Some g
               | None => match_filename t
               end
          else match_filename t).
  by rewrite H, E.
Qed.

(** In a header that opens with [attachment; filename=] the match starts
    at the key. *)
Lemma match_filename_attachment rest group :
  match_after_key rest = Some group ->
  match_filename (js "attachment; filename=" ++ rest) = Some group.
Proof.
  intros E.
  change (js "attachment; filename=" ++ rest)
    with (97 :: 116 :: 116 :: 97 :: 99 :: 104 :: 109 :: 101 :: 110 :: 116
          :: 59 :: 32 :: 102 :: 105 :: 108 :: 101 :: 110 :: 97 :: 109 :: 101
          :: 61 :: rest).
  do 12 (rewrite match_filename_skip by reflexivity).
  by apply match_filename_hit.
Qed.

Lemma saved_filename_quoted name :
  Forall (fun c => is_line_terminator c = false) name ->
  saved_filename
    (Some (js "attachment; filename=" ++ [c_dquote] ++ name ++ [c_dquote]))
  = name ++ [c_dquote].
Proof.
  intros Hn.
  assert (match_filename
            (js "attachment; filename=" ++ [c_dquote] ++ name ++ [c_dquote])
          = Some (name ++ [c_dquote])) as E.
  { apply match_filename_attachment.
    change (match_after_key ([c_dquote] ++ name ++ [c_dquote]))
      with (match dot_plus (name ++ [c_dquote]) with
            | Some g => Some g
            | None => dot_plus (c_dquote :: name ++ [c_dquote])
            end).
    unfold dot_plus. rewrite dot_run_id.
    - by destruct name.
    - apply Forall_app_2; [done|by repeat constructor]. }
  change (saved_filename
            (Some (js "attachment; filename=" ++ [c_dquote] ++ name
                   ++ [c_dquote])))
    with (match match_filename
                  (js "attachment; filename=" ++ [c_dquote] ++ name
                   ++ [c_dquote]) with
          | Some g => g
          | None => js "compressed.pdf"
          end).
  by rewrite E.
Qed.

(** X15. The page saves a quoted name with its closing quote.  For a
    header [attachment; filename="NAME"], with no line break in NAME, the
    name read by lines 840-841 is NAME followed by the quote: the group
    [(.+)] runs to the end of the header and leaves nothing for the last
    [?] of the pattern.  Without the quotes the name is read as it is. *)
Theorem X15_saved_name_keeps_closing_quote name :
  forallb (fun c => negb (is_line_terminator c)) name = true ->
  saved_filename
    (Some (js "attachment; filename=" ++ [c_dquote] ++ name ++ [c_dquote]))
  = name ++ [c_dquote]
  /\ (forall c rest, name = c :: rest -> c <> c_dquote ->
      saved_filename (Some (js "attachment; filename=" ++ name)) = name).
Proof.
  intros H.
  assert (Forall (fun c => is_line_terminator c = false) name) as Hn.
  { apply Forall_forall. intros c Hc.
    rewrite forallb_forall in H. apply negb_true_iff, H.
    by apply list_elem_of_In. }
  split; [by apply saved_filename_quoted|].
  intros c rest -> Hc.
  assert (match_filename (js "attachment; filename=" ++ c :: rest)
          = Some (c :: rest)) as E.
  { apply match_filename_attachment. unfold match_after_key.
    apply N.eqb_neq in Hc. rewrite Hc. unfold dot_plus.
    by rewrite dot_run_id. }
  change (saved_filename (Some (js "attachment; filename=" ++ c :: rest)))
    with (match match_filename (js "attachment; filename=" ++ c :: rest) with
          | Some g => g
          | None => js "compressed.pdf"
          end).
  by rewrite E.
Qed.

Lemma X15_saved_name_keeps_closing_quote_witness :
  saved_filename
    (Some (js "attachment; filename=" ++ [c_dquote]
           ++ js "compressed-1700000000001-my_report_final.pdf"
           ++ [c_dquote]))
  = js "compressed-1700000000001-my_report_final.pdf" ++ [c_dquote].
Proof.
  exact (proj1 (X15_saved_name_keeps_closing_quote
                  (js "compressed-1700000000001-my_report_final.pdf")
                  eq_refl)).
Defined.

(** X16. Whatever header the answer carries, and when it carries none,
    the name the page saves under is not empty and holds no line break:
    it is the group of the match, or [compressed.pdf]. *)
Theorem X16_saved_name_never_empty contentDisposition :
  saved_filename contentDisposition <> []
  /\ forallb (fun c => negb (is_line_terminator c))
       (saved_filename contentDisposition) = true.
Proof.
  assert (forall g, Forall (fun c => is_line_terminator c = false) g ->
            forallb (fun c => negb (is_line_terminator c)) g = true) as Hf.
  { intros g Hg. apply forallb_Forall_true.
    eapply Forall_impl; [exact Hg|]. intros c ->. done. }
  destruct contentDisposition as [[|c h]|]; [by split..| |by split].
  change (saved_filename (Some (c :: h)))
    with (match match_filename (c :: h) with
          | Some g => g
          | None => js "compressed.pdf"
          end).
  destruct (match_filename (c :: h)) as [g|] eqn:E; [|by split].
  apply match_filename_Some in E as [Hne Hg]. split; [done|by apply Hf].
Qed.

(** X17. The server and the page together.  The second revision offers
    every output under a name of [[A-Za-z0-9._-]] that ends in [.pdf];
    sent as [attachment; filename="NAME"], it is saved by the page as
    NAME followed by a quote, hence under a name that does not end in
    [.pdf]. *)
Theorem X17_download_is_saved_with_a_quote now originalname :
  let name := V2.outputFileName now originalname in
  let saved :=
    saved_filename
      (Some (js "attachment; filename=" ++ [c_dquote] ++ name ++ [c_dquote])) in
  ends_with (js ".pdf") name = true
  /\ saved = name ++ [c_dquote]
  /\ ends_with (js ".pdf") saved = false.
Proof.
  intros name saved.
  assert (saved = name ++ [c_dquote]) as E.
  { apply saved_filename_quoted.
    eapply Forall_impl; [apply V2_outputFileName_class|].
    intros c. unfold is_word_dot_hyphen, is_alnum, is_lower, is_upper,
      is_digit, is_line_terminator, c_dot, c_underscore, c_hyphen.
    rewrite !orb_true_iff, !andb_true_iff, !N.leb_le, !N.eqb_eq.
    intros H. rewrite !orb_false_iff, !N.eqb_neq. lia. }
  split.
  { subst name. unfold V2.outputFileName.
    rewrite !app_assoc. apply ends_with_app. }
  split; [exact E|]. rewrite E. unfold ends_with.
  by rewrite rev_app_distr.
Qed.

(** X18. The page and the table agree.  The values of the three options
    of the select are the three own keys of the table, and the option
    marked [selected] is the level the server takes when the field is
    missing; so a request the page sends is never answered with
    [Invalid compression level]: the only JSON answer it can get is the
    500 of a failed run. *)
Theorem X18_page_levels_are_the_table_keys value file env w :
  value ∈ select_options ->
  (exists p, profile_lookup (compressionLevel (form_request file value))
             = Found p)
  /\ list_to_set select_options = dom compressionSettings
  /\ compressionLevel {| pdfFile := Some file; body_compressionLevel := None |}
     = selected_option
  /\ (exists new,
        json_responses (trace (V2.post_compress_pdf env
                                 (form_request file value) w))
        = json_responses (trace w) ++ new
        /\ Forall (fun r => r.1 = 500) new).
Proof.
  intros Hv.
  assert (exists p, profile_lookup (compressionLevel (form_request file value))
                    = Found p) as [p Hp].
  { unfold select_options in Hv.
    repeat (apply elem_of_cons in Hv as [->|Hv]; [by eexists|]).
    by apply elem_of_nil in Hv. }
  split; [by exists p|]. split.
  { unfold compressionSettings, select_options.
    rewrite !dom_insert_L, dom_empty_L. simpl. set_solver. }
  split; [reflexivity|].
  rewrite (V2_json_responses_request env (form_request file value) file w
             eq_refl); [|by rewrite Hp].
  eexists. split; [reflexivity|].
  destruct (exec_error _ _); by repeat constructor.
Qed.

Lemma X18_page_levels_are_the_table_keys_witness :
  exists p,
    profile_lookup (compressionLevel (form_request sample_upload (js "little")))
    = Found p.
Proof.
  refine (proj1 (X18_page_levels_are_the_table_keys (js "little")
                   sample_upload (sample_env tool_ok false) empty_world _)).
  apply elem_of_cons. by left.
Defined.

(** ** The staging directories (lines 523-527 and 592-593) *)

Lemma dirs_fs_unlink p on_error w :
  (forall w0, dirs (on_error w0) = dirs w0) ->
  dirs (fs_unlink p on_error w) = dirs w.
Proof.
  intros H. unfold fs_unlink. destruct (bool_decide (p ∈ files w)); [done|].
  by rewrite H.
Qed.

Lemma dirs_ensure_dir d w : dirs (ensure_dir d w) = {[d]} ∪ dirs w.
Proof.
  unfold ensure_dir. destruct (decide (d ∈ dirs w)) as [Hin|Hout].
  - rewrite bool_decide_eq_true_2 by done. set_solver.
  - by rewrite bool_decide_eq_false_2.
Qed.

Lemma mkdirs_ensure_dir d w :
  mkdirs (trace (ensure_dir d w))
  = mkdirs (trace w) ++ (if bool_decide (d ∈ dirs w) then [] else [d]).
Proof.
  unfold ensure_dir. destruct (bool_decide (d ∈ dirs w)).
  - by rewrite app_nil_r.
  - unfold mkdirs, emit. simpl. by rewrite omap_app.
Qed.

Lemma dirs_run_tool env cmd w : dirs (run_tool env cmd w) = dirs w.
Proof.
  unfold run_tool. destruct (output_file_of cmd); [|done].
  by destruct (writes_output (child env)).
Qed.

Lemma V2_dirs_exec_callback env inputPath outputPath name error w :
  dirs (V2.exec_callback env inputPath outputPath name error w) = dirs w.
Proof.
  unfold V2.exec_callback. rewrite seq_action_apply.
  set (w1 := fs_unlink inputPath _ w).
  assert (dirs w1 = dirs w) as H1 by by apply dirs_fs_unlink.
  clearbody w1. destruct error as [message|].
  - rewrite !seq_action_apply. unfold res_json, console.
    change (dirs (fs_unlink outputPath skip
                    (emit (EvConsole Error (js "Ghostscript stderr: "
                                            ++ child_stderr (child env)))
                       (emit (EvConsole Error (js "Ghostscript error: "
                                               ++ message)) w1)))
            = dirs w).
    by rewrite dirs_fs_unlink.
  - rewrite !seq_action_apply. unfold res_download, V2.download_callback.
    rewrite seq_action_apply, dirs_fs_unlink by done.
    destruct (download_failed _); destruct (nonempty _); exact H1.
Qed.

Lemma mkdirs_emit e w :
  mkdirs (trace (emit e w))
  = mkdirs (trace w) ++ match e with EvMkdir d => [d] | _ => [] end.
Proof. unfold mkdirs. rewrite obs_emit. unfold seen. by destruct e. Qed.

Lemma mkdirs_fs_unlink p on_error w :
  (forall w0, mkdirs (trace (on_error w0)) = mkdirs (trace w0)) ->
  mkdirs (trace (fs_unlink p on_error w)) = mkdirs (trace w).
Proof. intros H. by apply (obs_fs_unlink _ (fun _ => eq_refl)). Qed.

Lemma mkdirs_console s m w : mkdirs (trace (console s m w)) = mkdirs (trace w).
Proof. apply (unseen_console _ (fun _ _ => eq_refl)). Qed.

Lemma V2_mkdirs_exec_callback env inputPath outputPath name error w :
  mkdirs (trace (V2.exec_callback env inputPath outputPath name error w))
  = mkdirs (trace w).
Proof.
  unfold mkdirs.
  rewrite (V2_obs_exec_callback _ (fun _ => eq_refl) (fun _ _ => eq_refl)).
  destruct error; unfold seen; cbv beta iota; by rewrite app_nil_r.
Qed.

Lemma V2_dirs_upload_single env req u w :
  pdfFile req = Some u ->
  dirs (V2.upload_single env req w) = {[V2.uploadDir]} ∪ dirs w
  /\ mkdirs (trace (V2.upload_single env req w))
     = mkdirs (trace w)
       ++ (if bool_decide (V2.uploadDir ∈ dirs w) then [] else [V2.uploadDir]).
Proof.
  intros Hu. unfold V2.upload_single. rewrite Hu, !seq_action_apply.
  split.
  - unfold create_file, emit. cbn [dirs]. apply dirs_ensure_dir.
  - unfold create_file. cbn [trace]. rewrite mkdirs_emit. cbv beta iota.
    by rewrite app_nil_r, mkdirs_ensure_dir.
Qed.

(** X19. The second revision creates each staging directory when it is
    first needed and not again, and removes none: a request with a file
    needs [uploads/], and [compressed_pdfs/] as well when its level is
    answered by the table; the directories it creates are those of the
    needed ones that are not there, and afterwards the directories are
    the former ones and the needed ones. *)
Theorem X19_V2_directories env req w :
  let needed :=
    match pdfFile req with
    | None => []
    | Some _ =>
        if truthy (profile_lookup (compressionLevel req))
        then [V2.uploadDir; V2.compressedDir] else [V2.uploadDir]
    end in
  let w' := V2.post_compress_pdf env req w in
  mkdirs (trace w')
  = mkdirs (trace w) ++ filter (fun d => d ∉ dirs w) needed
  /\ dirs w' = dirs w ∪ list_to_set needed.
Proof.
  intros needed w'. subst needed w'.
  assert (V2.compressedDir <> V2.uploadDir) as Hne by discriminate.
  unfold V2.post_compress_pdf. rewrite seq_action_apply.
  destruct (pdfFile req) as [u|] eqn:Hu.
  - destruct (V2_dirs_upload_single env req u w Hu) as [Hd Hm].
    set (w0 := V2.upload_single env req w) in *. clearbody w0.
    unfold V2.handler. rewrite Hu.
    destruct (truthy (profile_lookup (compressionLevel req))) eqn:Ht;
      cbn [negb]; cbv beta iota zeta.
    + rewrite !seq_action_apply. unfold exec. rewrite !seq_action_apply.
      split.
      * rewrite V2_mkdirs_exec_callback.
        unfold mkdirs at 1. rewrite trace_run_tool.
        fold (mkdirs (trace (emit (EvExec (gsCommand (profile_lookup (compressionLevel req))
                (V2.outputPath (now_handler env) (originalname u))
                (V2.file_path (now_upload env) (originalname u))))
      (console Log (js "Executing Ghostscript command:")
         (ensure_dir V2.compressedDir w0))))).
        rewrite mkdirs_emit, mkdirs_console, mkdirs_ensure_dir, Hm, Hd.
        cbv beta iota. rewrite app_nil_r, <- app_assoc. f_equal.
        revert Hne. clear. generalize V2.uploadDir, V2.compressedDir.
        intros a b Hne. rewrite !filter_cons, filter_nil.
        destruct (decide (a ∈ dirs w)) as [Ha|Ha];
          destruct (decide (b ∈ dirs w)) as [Hb|Hb].
        -- rewrite (decide_False (P := a ∉ dirs w)) by tauto.
           rewrite (decide_False (P := b ∉ dirs w)) by tauto.
           rewrite (bool_decide_eq_true_2 (a ∈ dirs w)) by done.
           by rewrite bool_decide_eq_true_2 by set_solver.
        -- rewrite (decide_False (P := a ∉ dirs w)) by tauto.
           rewrite (decide_True (P := b ∉ dirs w)) by tauto.
           rewrite (bool_decide_eq_true_2 (a ∈ dirs w)) by done.
           by rewrite bool_decide_eq_false_2 by set_solver.
        -- rewrite (decide_True (P := a ∉ dirs w)) by tauto.
           rewrite (decide_False (P := b ∉ dirs w)) by tauto.
           rewrite (bool_decide_eq_false_2 (a ∈ dirs w)) by done.
           by rewrite bool_decide_eq_true_2 by set_solver.
        -- rewrite (decide_True (P := a ∉ dirs w)) by tauto.
           rewrite (decide_True (P := b ∉ dirs w)) by tauto.
           rewrite (bool_decide_eq_false_2 (a ∈ dirs w)) by done.
           by rewrite bool_decide_eq_false_2 by set_solver.
      * rewrite V2_dirs_exec_callback, dirs_run_tool. unfold console, emit.
        cbn [dirs]. rewrite dirs_ensure_dir, Hd. 
        change (list_to_set [V2.uploadDir; V2.compressedDir])
          with ({[V2.uploadDir]} ∪ ({[V2.compressedDir]} ∪ (∅ : gset jstring))).
        clear. generalize V2.uploadDir, V2.compressedDir. set_solver.
    + rewrite seq_action_apply. split.
      * unfold res_json. rewrite mkdirs_emit. cbv beta iota.
        rewrite app_nil_r, mkdirs_fs_unlink by apply mkdirs_console.
        rewrite Hm. f_equal. clear. generalize V2.uploadDir. intros a.
        rewrite filter_cons, filter_nil.
        destruct (decide (a ∈ dirs w)) as [Ha|Ha].
        -- rewrite bool_decide_eq_true_2 by done.
           by rewrite (decide_False (P := a ∉ dirs w)) by tauto.
        -- rewrite bool_decide_eq_false_2 by done.
           by rewrite (decide_True (P := a ∉ dirs w)).
      * unfold res_json, emit. cbn [dirs].
        rewrite dirs_fs_unlink by done. rewrite Hd.
        change (list_to_set [V2.uploadDir])
          with ({[V2.uploadDir]} ∪ (∅ : gset jstring)).
        clear. generalize V2.uploadDir. set_solver.
  - unfold V2.upload_single, V2.handler. rewrite Hu.
    unfold skip, res_json. rewrite mkdirs_emit. cbv beta iota.
    unfold emit. cbn [dirs]. rewrite filter_nil.
    change (list_to_set []) with (∅ : gset jstring).
    split; [done|clear; set_solver].
Qed.
